(** * useList: the list-fetching hook of packages/core/src/hooks/data/useList.ts

    The hook is embedded as a pure function from its props and from the
    capabilities it consumes to the hook calls it performs (in order) and
    the object it returns.  JavaScript objects that are built with spread
    syntax are finite maps from property names to values; the props, which
    the hook destructures by name, are records with optional fields. *)

From stdpp Require Import base option strings gmap list pretty.
From Stdlib Require Import ZArith Lia.

Local Open Scope Z_scope.
Local Set Warnings "-register-all".

(** ** JavaScript values *)

(** Numbers are modelled by their integer values: page numbers, page sizes,
    totals and status codes are integers in every use the hook makes of
    them.  [JHost] stands for a host object the hook only passes along (a
    function, an AbortSignal). *)
Inductive Js : Type :=
  | JUndefined
  | JNull
  | JBool (b : bool)
  | JNum (n : Z)
  | JStr (s : string)
  | JArr (xs : list Js)
  | JObj (fields : gmap string Js)
  | JHost (handle : positive).

Abbreviation Obj := (gmap string Js) (only parsing).

(** [{ ...base, ...over }]: the properties of [over] win. *)
Definition spread (base over : Obj) : Obj := over ∪ base.

(** [...(cond && obj)] for a boolean [cond]: spreading [false] adds
    nothing. *)
Definition spreadIf (cond : bool) (obj : Obj) : Obj :=
  if cond then obj else ∅.

(** [...(x && obj)] for an optional array [x]: an array is truthy, and
    spreading [undefined] adds nothing. *)
Definition spreadWhen {A} (x : option A) (obj : A → Obj) : Obj :=
  match x with Some a => obj a | None => ∅ end.

(** A template literal [`${x}`] of an optional string. *)
Definition templateString (x : option string) : string :=
  default "undefined" x.

(** Property read [o.k]: a missing property reads as [undefined]. *)
Definition prop (o : Obj) (k : string) : Js := default JUndefined (o !! k).

Definition jsOpt {A} (inj : A → Js) (o : option A) : Js :=
  match o with Some a => inj a | None => JUndefined end.

(** Template-literal conversion of a number. *)
Definition numToString (n : Z) : string := pretty n.

(** ** Array.prototype.slice *)

(** A relative index is counted from the end when negative and clamped to
    the array. *)
Definition relativeIndex (len i : Z) : Z :=
  if i <? 0 then Z.max (len + i) 0 else Z.min i len.

Definition slice {A} (xs : list A) (start finish : Z) : list A :=
  let len := Z.of_nat (length xs) in
  let k := relativeIndex len start in
  let final := relativeIndex len finish in
  take (Z.to_nat (final - k)) (drop (Z.to_nat k) xs).

(** ** Hook calls *)

(** A hook body is a sequence of calls to other hooks; [Hook A] records the
    calls made so far next to the value computed. *)
Section HookMonad.
Context {Call : Type}.

Definition Hook (A : Type) : Type := list Call * A.

Definition hret {A} (a : A) : Hook A := ([], a).

Definition hbind {A B} (m : Hook A) (k : A → Hook B) : Hook B :=
  let '(c1, a) := m in
  let '(c2, b) := k a in
  (c1 ++ c2, b).

Definition hcall {A} (c : Call) (result : A) : Hook A := ([c], result).

Definition calls {A} (m : Hook A) : list Call := m.1.
Definition value {A} (m : Hook A) : A := m.2.
End HookMonad.

Arguments Hook : clear implicits.

Notation "'const!' x ':=' m 'in' k" := (hbind m (fun x => k))
  (at level 10, x pattern, m at level 100, k at level 200, only parsing).
Notation "'do!' m 'in' k" := (hbind m (fun _ => k))
  (at level 10, m at level 100, k at level 200, only parsing).

(** ** Interfaces

    The shapes of "../../interfaces" as the hook uses them.  Optional
    properties are [option]s; [None] is [undefined]. *)

Abbreviation MetaQuery := (gmap string Js) (only parsing).
Abbreviation CrudFilters := (list Js) (only parsing).
Abbreviation CrudSorting := (list Js) (only parsing).
Abbreviation QueryKey := (list Js) (only parsing).

(** [Pagination], every property optional. *)
Record Pagination := {
  p_current : option Z;
  p_pageSize : option Z;
  p_mode : option string;
}.

(** [Required<Pagination>], the result of [handlePaginationParams]. *)
Record RequiredPagination := {
  current : Z;
  pageSize : Z;
  mode : string;
}.

Definition jsPagination (p : RequiredPagination) : Js :=
  JObj {[ "current" := JNum (current p);
          "pageSize" := JNum (pageSize p);
          "mode" := JStr (mode p) ]}.

Record UseListConfig := {
  c_pagination : option Pagination;
  c_hasPagination : option bool;
  c_sort : option CrudSorting;
  c_filters : option CrudFilters;
}.

Record IResourceItem := {
  name : string;
  resourceOptions : gmap string Js;
}.

(** What [useResource] returns. *)
Record ResourceContext := {
  resources : list IResourceItem;
  resource : option IResourceItem;
  identifier : option string;
}.

Record GetListResponse := {
  data : list Js;
  total : Z;
  otherFields : gmap string Js;
}.

Record HttpError := {
  message : string;
  statusCode : Z;
}.

Inductive Promise (A : Type) : Type :=
  | Fulfilled (a : A)
  | Rejected (err : HttpError).
Arguments Fulfilled {A} a.
Arguments Rejected {A} err.

Record GetListParams := {
  gl_resource : string;
  gl_pagination : RequiredPagination;
  gl_hasPagination : bool;
  gl_filters : option CrudFilters;
  gl_sort : option CrudSorting;
  gl_sorters : option CrudSorting;
  gl_meta : gmap string Js;
  gl_metaData : gmap string Js;
}.

Record AuthProvider := {
  isLegacy : option bool;
}.

Record DataProvider := {
  getList : GetListParams → Promise GetListResponse;
}.

Record OpenNotificationParams := {
  n_key : option string;
  n_message : string;
  n_description : option string;
  n_type : string;
}.

(** The first argument of [handleNotification]: notification parameters or
    [false]. *)
Inductive NotificationConfig : Type :=
  | NotificationOff
  | NotificationParams (p : OpenNotificationParams).

Record NotificationValues := {
  nv_meta : gmap string Js;
  nv_metaData : gmap string Js;
  nv_filters : option CrudFilters;
  nv_hasPagination : bool;
  nv_pagination : RequiredPagination;
  nv_sorters : option CrudSorting;
  nv_config : UseListConfig;
}.

(** [successNotification] and [errorNotification]: a configuration, or a
    function computing one. *)
Inductive NotificationProp (D : Type) : Type :=
  | NotificationStatic (c : NotificationConfig)
  | NotificationFunction
      (f : D → NotificationValues → option string → option NotificationConfig).
Arguments NotificationStatic {D} c.
Arguments NotificationFunction {D} f.

(** What the callbacks registered with the query library do when invoked.
    The caller's own callbacks are host functions, named by a handle. *)
Inductive Effect : Type :=
  | CheckError (v3LegacyAuthProviderCompatible : bool) (err : HttpError)
  | CallerOnSuccess (callback : positive) (response : GetListResponse)
  | CallerOnError (callback : positive) (err : HttpError)
  | HandleNotification (config : option NotificationConfig)
      (fallback : option OpenNotificationParams).

(** [queryOptions] as passed by the caller. *)
Record UseQueryOptions := {
  enabled : option bool;
  select : option (GetListResponse → GetListResponse);
  onSuccess : option positive;
  onError : option positive;
  otherOptions : gmap string Js;
}.

Record OvertimeOptions := {
  interval : option Z;
  onInterval : option positive;
}.

Record UseListProps := {
  resourceFromProp : option string;
  config : option UseListConfig;
  filters : option CrudFilters;
  hasPagination : option bool;
  pagination : option Pagination;
  sorters : option CrudSorting;
  queryOptions : option UseQueryOptions;
  successNotification : option (NotificationProp GetListResponse);
  errorNotification : option (NotificationProp HttpError);
  meta : option MetaQuery;
  metaData : option MetaQuery;
  liveMode : option string;
  onLiveEvent : option positive;
  liveParams : option (gmap string Js);
  dataProviderName : option string;
  overtimeOptions : option OvertimeOptions;
}.

(** The context the query library hands to the query function. *)
Record QueryFunctionContext := {
  ctx_queryKey : QueryKey;
  ctx_pageParam : Js;
  ctx_signal : Js;
}.

Definition jsQueryContext (ctx : QueryFunctionContext) : Js :=
  JObj {[ "queryKey" := JArr (ctx_queryKey ctx);
          "pageParam" := ctx_pageParam ctx;
          "signal" := ctx_signal ctx ]}.

(** The options object the hook passes to [useQuery]. *)
Record QueryObserverOptions := {
  o_enabled : bool;
  o_select : GetListResponse → GetListResponse;
  o_onSuccess : GetListResponse → list Effect;
  o_onError : HttpError → list Effect;
  o_otherOptions : gmap string Js;
}.

Record ResourceSubscription := {
  s_resource : option string;
  s_types : list string;
  s_params : gmap string Js;
  s_channel : string;
  s_enabled : bool;
  s_liveMode : option string;
  s_onLiveEvent : option positive;
}.

Record LoadingOvertimeProps := {
  lo_isLoading : Js;
  lo_interval : option Z;
  lo_onInterval : option positive;
}.

(** The hooks the body calls that register something with the framework. *)
Inductive HookCall : Type :=
  | UseResourceSubscription (args : ResourceSubscription)
  | UseQuery (key : QueryKey)
      (queryFn : QueryFunctionContext → Promise GetListResponse)
      (options : QueryObserverOptions)
  | UseLoadingOvertime (args : LoadingOvertimeProps).

(** What [queryKeys(...)] returns, as far as the hook uses it. *)
Record QueryKeys := {
  qk_list : gmap string Js → QueryKey;
}.

(** ** The hook *)

(** What the hook reads from its context through "@hooks", what the query
    library and the overtime hook give back, and the helpers it imports
    from "@definitions/helpers".  None of them is defined in useList.ts;
    the hook is embedded over any implementation of them. *)
Class HookContext := {
  useResource : option string → ResourceContext;
  dataProvider : string → DataProvider;
  translate : string → gmap string Js → string → string;
  authProvider : option AuthProvider;
  getMeta : option IResourceItem → option MetaQuery → gmap string Js;
  useQuery :
    QueryKey → (QueryFunctionContext → Promise GetListResponse) →
    QueryObserverOptions → gmap string Js;
  useLoadingOvertime : LoadingOvertimeProps → option Z;
}.

Class Helpers := {
  pickDataProvider :
    option string → option string → list IResourceItem → string;
  pickNotDeprecated : ∀ A : Type, option A → option A → option A;
  handlePaginationParams :
    option Pagination → option Pagination → option bool → RequiredPagination;
  queryKeys : option string → string → option MetaQuery → QueryKeys;
}.

Arguments pickNotDeprecated {_ A} _ _.

Section UseList.
Context {hooks : HookContext} {helpers : Helpers}.
Variable props : UseListProps.

Definition resourceContext : ResourceContext :=
  useResource (resourceFromProp props).

(** [Boolean(authProvider?.isLegacy)] *)
Definition v3LegacyAuthProviderCompatible : bool :=
  bool_decide (authProvider ≫= isLegacy = Some true).

Definition pickedDataProvider : string :=
  pickDataProvider (identifier resourceContext) (dataProviderName props)
    (resources resourceContext).

Definition preferredMeta : option MetaQuery :=
  pickNotDeprecated (meta props) (metaData props).

Definition prefferedFilters : option CrudFilters :=
  pickNotDeprecated (filters props) (config props ≫= c_filters).

Definition prefferedSorters : option CrudSorting :=
  pickNotDeprecated (sorters props) (config props ≫= c_sort).

Definition prefferedHasPagination : option bool :=
  pickNotDeprecated (hasPagination props) (config props ≫= c_hasPagination).

Definition prefferedPagination : RequiredPagination :=
  handlePaginationParams (pagination props) (config props ≫= c_pagination)
    prefferedHasPagination.

Definition isServerPagination : bool :=
  bool_decide (mode prefferedPagination = "server").

Definition combinedMeta : gmap string Js :=
  getMeta (resource resourceContext) preferredMeta.

Definition notificationValues : NotificationValues :=
  {| nv_meta := combinedMeta;
     nv_metaData := combinedMeta;
     nv_filters := prefferedFilters;
     nv_hasPagination := isServerPagination;
     nv_pagination := prefferedPagination;
     nv_sorters := prefferedSorters;
     nv_config :=
       {| c_pagination := config props ≫= c_pagination;
          c_hasPagination := config props ≫= c_hasPagination;
          c_sort := prefferedSorters;
          c_filters := config props ≫= c_filters |} |}.

Definition isEnabled : bool :=
  bool_decide (queryOptions props ≫= enabled = None)
  || bool_decide (queryOptions props ≫= enabled = Some true).

Definition queryKey : QueryKeys :=
  queryKeys (identifier resourceContext) pickedDataProvider preferredMeta.

(** The argument of [useResourceSubscription]. *)
Definition subscriptionParams : gmap string Js :=
  spread
    {[ "meta" := JObj combinedMeta;
       "metaData" := JObj combinedMeta;
       "pagination" := jsPagination prefferedPagination;
       "hasPagination" := JBool isServerPagination;
       "sort" := jsOpt JArr prefferedSorters;
       "sorters" := jsOpt JArr prefferedSorters;
       "filters" := jsOpt JArr prefferedFilters;
       "subscriptionType" := JStr "useList" ]}
    (default ∅ (liveParams props)).

Definition resourceSubscription : ResourceSubscription :=
  {| s_resource := identifier resourceContext;
     s_types := ["*"%string];
     s_params := subscriptionParams;
     s_channel := "resources/" +:+ templateString (name <$> resource resourceContext);
     s_enabled := isEnabled;
     s_liveMode := liveMode props;
     s_onLiveEvent := onLiveEvent props |}.

(** The argument of [queryKey.list]. *)
Definition listKeyConfig : gmap string Js :=
  spread (spread (spread
    {[ "filters" := jsOpt JArr prefferedFilters;
       "hasPagination" := JBool isServerPagination ]}
    (spreadIf isServerPagination
       {[ "pagination" := jsPagination prefferedPagination ]}))
    (spreadWhen (sorters props) (λ s, {[ "sorters" := JArr s ]})))
    (spreadWhen (config props ≫= c_sort) (λ s, {[ "sort" := JArr s ]})).

Definition listQueryKey : QueryKey := qk_list queryKey listKeyConfig.

(** The argument of [getList]. *)
Definition getListParams (ctx : QueryFunctionContext) : GetListParams :=
  {| gl_resource := default "" (name <$> resource resourceContext);
     gl_pagination := prefferedPagination;
     gl_hasPagination := isServerPagination;
     gl_filters := prefferedFilters;
     gl_sort := prefferedSorters;
     gl_sorters := prefferedSorters;
     gl_meta :=
       spread combinedMeta {[ "queryContext" := jsQueryContext ctx ]};
     gl_metaData :=
       spread combinedMeta {[ "queryContext" := jsQueryContext ctx ]} |}.

(** The query function. *)
Definition useList_queryFn (ctx : QueryFunctionContext)
  : Promise GetListResponse :=
  getList (dataProvider pickedDataProvider) (getListParams ctx).

(** [enabled] of the query: the caller's flag, or [!!resource?.name]. *)
Definition useList_enabled : bool :=
  match queryOptions props ≫= enabled with
  | Some b => b
  | None =>
      match resource resourceContext with
      | Some r => bool_decide (name r ≠ "")
      | None => false
      end
  end.

(** The local page of a response, the [mode === "client"] block. *)
Definition clientPage (rawData : GetListResponse) : GetListResponse :=
  let '{| current := current; mode := mode; pageSize := pageSize |} :=
    prefferedPagination in
  if bool_decide (mode = "client") then
    {| data := slice (data rawData)
                 ((current - 1) * pageSize) (current * pageSize);
       total := total rawData;
       otherFields := otherFields rawData |}
  else rawData.

Definition useList_select (rawData : GetListResponse) : GetListResponse :=
  let data := clientPage rawData in
  match queryOptions props ≫= select with
  | Some callerSelect => callerSelect data
  | None => data
  end.

Definition resolveNotification {D} (n : option (NotificationProp D)) (d : D)
  : option NotificationConfig :=
  match n with
  | Some (NotificationFunction f) =>
      f d notificationValues (identifier resourceContext)
  | Some (NotificationStatic c) => Some c
  | None => None
  end.

Definition useList_onSuccess (response : GetListResponse) : list Effect :=
  match queryOptions props ≫= onSuccess with
  | Some f => [CallerOnSuccess f response]
  | None => []
  end ++
  [HandleNotification
     (resolveNotification (successNotification props) response) None].

Definition errorFallback (err : HttpError) : OpenNotificationParams :=
  {| n_key :=
       Some (templateString (identifier resourceContext)
             +:+ "-useList-notification");
     n_message :=
       translate "notifications.error"
         {[ "statusCode" := JNum (statusCode err) ]}
         ("Error (status code: " +:+ numToString (statusCode err) +:+ ")");
     n_description := Some (message err);
     n_type := "error" |}.

Definition useList_onError (err : HttpError) : list Effect :=
  [CheckError v3LegacyAuthProviderCompatible err] ++
  match queryOptions props ≫= onError with
  | Some f => [CallerOnError f err]
  | None => []
  end ++
  [HandleNotification
     (resolveNotification (errorNotification props) err)
     (Some (errorFallback err))].

(** The third argument of [useQuery]: the caller's options, with the
    hook's own [enabled], [select], [onSuccess] and [onError]. *)
Definition useList_queryOptions : QueryObserverOptions :=
  {| o_enabled := useList_enabled;
     o_select := useList_select;
     o_onSuccess := useList_onSuccess;
     o_onError := useList_onError;
     o_otherOptions := default ∅ (otherOptions <$> queryOptions props) |}.

Definition useList : Hook HookCall (gmap string Js) :=
  do! hcall (UseResourceSubscription resourceSubscription) () in
  const! queryResponse :=
    hcall (UseQuery listQueryKey useList_queryFn useList_queryOptions)
      (useQuery listQueryKey useList_queryFn useList_queryOptions) in
  let args :=
    {| lo_isLoading := prop queryResponse "isFetching";
       lo_interval := overtimeOptions props ≫= interval;
       lo_onInterval := overtimeOptions props ≫= onInterval |} in
  const! elapsedTime :=
    hcall (UseLoadingOvertime args) (useLoadingOvertime args) in
  hret (spread queryResponse
          {[ "overtime" :=
               JObj {[ "elapsedTime" := jsOpt JNum elapsedTime ]} ]}).

End UseList.

(** The subscriptions registered by a sequence of hook calls. *)
Definition subscriptionCalls (cs : list HookCall) : list ResourceSubscription :=
  omap (λ c, match c with UseResourceSubscription a => Some a | _ => None end)
    cs.


(** ** Helpers that are not part of useList.ts *)

Module SpecModel.

(** Modelled from the spec: [pickNotDeprecated] of "@definitions/helpers",
    which useList.ts imports and calls with the current option first and
    its deprecated name second.  The spec has the hook "merge deprecated
    and current option names (last-writer-wins over a fixed precedence)":
    the candidates come in order of precedence, they are written from the
    lowest precedence up, and a defined candidate overwrites what was
    written before it. *)
Definition pickNotDeprecated {A} (args : list (option A)) : option A :=
  foldr (λ arg written, match arg with Some v => Some v | None => written end)
    None args.

(** Modelled from the spec: the pagination mode, a property of the
    [Pagination] interface of "../../interfaces".  The spec has the hook
    "derive a pagination mode (server vs. client) from a flag". *)
Inductive PaginationMode : Type :=
  | Server
  | Client.

Definition modeName (m : PaginationMode) : string :=
  match m with
  | Server => "server"
  | Client => "client"
  end.

Record DerivedPagination := {
  d_current : Z;
  d_pageSize : Z;
  d_mode : PaginationMode;
}.

(** Modelled from the spec: [handlePaginationParams] of
    "@definitions/helpers".  The spec fixes the modes it can produce, not
    how the options and the flag select one; [derive] stands for that
    choice. *)
Definition handlePaginationParams
    (derive : option Pagination → option Pagination → option bool →
              DerivedPagination)
    (pagination configPagination : option Pagination)
    (hasPagination : option bool) : RequiredPagination :=
  let d := derive pagination configPagination hasPagination in
  {| current := d_current d;
     pageSize := d_pageSize d;
     mode := modeName (d_mode d) |}.

End SpecModel.

(** Helpers [h] with [pickNotDeprecated] as the spec has it. *)
Definition withSpecPick (h : Helpers) : Helpers :=
  {| pickDataProvider := @pickDataProvider h;
     pickNotDeprecated := λ A current deprecated,
       SpecModel.pickNotDeprecated [current; deprecated];
     handlePaginationParams := @handlePaginationParams h;
     queryKeys := @queryKeys h |}.

(** Helpers [h] with [handlePaginationParams] as the spec has it. *)
Definition withSpecPagination
    (derive : option Pagination → option Pagination → option bool →
              SpecModel.DerivedPagination)
    (h : Helpers) : Helpers :=
  {| pickDataProvider := @pickDataProvider h;
     pickNotDeprecated := @pickNotDeprecated h;
     handlePaginationParams := SpecModel.handlePaginationParams derive;
     queryKeys := @queryKeys h |}.

(** ** A concrete setting, to run the hook *)

Module Sample.

Definition jsResponse (r : GetListResponse) : Js :=
  JObj (spread (otherFields r)
          {[ "data" := JArr (data r); "total" := JNum (total r) ]}).

Definition products : GetListResponse :=
  {| data := JNum <$> [11; 12; 13; 14; 15];
     total := 5;
     otherFields := {[ "cursor" := JStr "next" ]} |}.

Definition notFound : HttpError :=
  {| message := "Not Found"; statusCode := 404 |}.

(** A query observer that has settled: it ran the query function once and,
    on success, holds the selected response in its [data] property. *)
Definition settledQuery (key : QueryKey)
    (queryFn : QueryFunctionContext → Promise GetListResponse)
    (options : QueryObserverOptions) : gmap string Js :=
  if o_enabled options then
    match queryFn {| ctx_queryKey := key; ctx_pageParam := JUndefined;
                     ctx_signal := JHost 1 |} with
    | Fulfilled raw =>
        {[ "status" := JStr "success"; "isFetching" := JBool false;
           "data" := jsResponse (o_select options raw) ]}
    | Rejected err =>
        {[ "status" := JStr "error"; "isFetching" := JBool false;
           "error" := JStr (message err) ]}
    end
  else {[ "status" := JStr "loading"; "isFetching" := JBool false ]}.

Definition context : HookContext :=
  {| useResource := λ r,
       {| resources := [];
          resource := (λ n, {| name := n; resourceOptions := ∅ |}) <$> r;
          identifier := r |};
     dataProvider := λ _, {| getList := λ _, Fulfilled products |};
     translate := λ _ _ defaultMessage, defaultMessage;
     authProvider := None;
     getMeta := λ _ m, default ∅ m;
     useQuery := settledQuery;
     useLoadingOvertime := λ _, None |}.

(** Stand-ins for the helpers, which are not part of useList.ts: the
    first defined option wins; the mode is the one asked for in
    [pagination], else it follows the flag; pages start at 1 and hold 10
    records unless the caller says otherwise.  The properties below hold
    for all helpers; these only serve to run the hook. *)
Definition helpers : Helpers :=
  {| pickDataProvider := λ _ dataProviderName _,
       default "default" dataProviderName;
     pickNotDeprecated := λ A current deprecated,
       SpecModel.pickNotDeprecated [current; deprecated];
     handlePaginationParams := λ pagination configPagination hasPagination,
       {| current :=
            default 1 (SpecModel.pickNotDeprecated
              [pagination ≫= p_current; configPagination ≫= p_current]);
          pageSize :=
            default 10 (SpecModel.pickNotDeprecated
              [pagination ≫= p_pageSize; configPagination ≫= p_pageSize]);
          mode :=
            default (if bool_decide (hasPagination = Some false)
                     then "client" else "server")
              (pagination ≫= p_mode) |};
     queryKeys := λ identifier provider _,
       {| qk_list := λ config,
            [JStr provider; JStr (default "" identifier); JStr "list";
             JObj config] |} |}.

Definition noProps : UseListProps :=
  {| resourceFromProp := None; config := None; filters := None;
     hasPagination := None; pagination := None; sorters := None;
     queryOptions := None; successNotification := None;
     errorNotification := None; meta := None; metaData := None;
     liveMode := None; onLiveEvent := None; liveParams := None;
     dataProviderName := None; overtimeOptions := None |}.

(** [useList({ resource: "products", pagination })] *)
Definition listProducts (p : Pagination) : UseListProps :=
  {| resourceFromProp := Some "products"; config := None; filters := None;
     hasPagination := None; pagination := Some p; sorters := None;
     queryOptions := None; successNotification := None;
     errorNotification := None; meta := None; metaData := None;
     liveMode := None; onLiveEvent := None; liveParams := None;
     dataProviderName := None; overtimeOptions := None |}.

Definition clientPagination (page size : Z) : Pagination :=
  {| p_current := Some page; p_pageSize := Some size;
     p_mode := Some "client" |}.

Definition serverPagination (page size : Z) : Pagination :=
  {| p_current := Some page; p_pageSize := Some size;
     p_mode := Some "server" |}.

Definition withQueryOptions (o : UseQueryOptions) (p : UseListProps)
  : UseListProps :=
  {| resourceFromProp := resourceFromProp p; config := config p;
     filters := filters p; hasPagination := hasPagination p;
     pagination := pagination p; sorters := sorters p;
     queryOptions := Some o; successNotification := successNotification p;
     errorNotification := errorNotification p; meta := meta p;
     metaData := metaData p; liveMode := liveMode p;
     onLiveEvent := onLiveEvent p; liveParams := liveParams p;
     dataProviderName := dataProviderName p;
     overtimeOptions := overtimeOptions p |}.

(** [queryOptions: { select }] *)
Definition selecting (f : GetListResponse → GetListResponse)
  : UseQueryOptions :=
  {| enabled := None; select := Some f; onSuccess := None; onError := None;
     otherOptions := ∅ |}.

(** [select: (r) => ({ ...r, data: [...r.data].reverse() })] *)
Definition reversed (r : GetListResponse) : GetListResponse :=
  {| data := reverse (data r); total := total r;
     otherFields := otherFields r |}.

(** [select: (r) => ({ ...r, total: r.data.length })] *)
Definition countPage (r : GetListResponse) : GetListResponse :=
  {| data := data r; total := Z.of_nat (length (data r));
     otherFields := otherFields r |}.

End Sample.

(** The props the request to the data provider is made from: all but the
    query options, the notifications, the live options and the overtime
    options. *)
Definition requestProps (p : UseListProps) :=
  (resourceFromProp p, config p, filters p, hasPagination p, pagination p,
   sorters p, meta p, metaData p, dataProviderName p).

(** The calls of [handleNotification] among the effects of a callback. *)
Definition notificationCalls (es : list Effect)
  : list (option NotificationConfig * option OpenNotificationParams) :=
  omap (λ e, match e with
             | HandleNotification c f => Some (c, f)
             | _ => None
             end) es.

(** The calls of [checkError] among the effects of a callback. *)
Definition checkErrorCalls (es : list Effect) : list HttpError :=
  omap (λ e, match e with CheckError _ err => Some err | _ => None end) es.

Module MoreSamples.

(** [pagination: { current, pageSize, mode }] with a mode the hook has no
    branch for. *)
Definition modePagination (m : string) (page size : Z) : Pagination :=
  {| p_current := Some page; p_pageSize := Some size; p_mode := Some m |}.

(** [useList({ resource: "products", sorters })] and
    [useList({ resource: "products", config: { sort } })] *)
Definition sortedProducts (s : CrudSorting) : UseListProps :=
  {| resourceFromProp := Some "products"; config := None; filters := None;
     hasPagination := None; pagination := None; sorters := Some s;
     queryOptions := None; successNotification := None;
     errorNotification := None; meta := None; metaData := None;
     liveMode := None; onLiveEvent := None; liveParams := None;
     dataProviderName := None; overtimeOptions := None |}.

Definition configSortedProducts (s : CrudSorting) : UseListProps :=
  {| resourceFromProp := Some "products";
     config := Some {| c_pagination := None; c_hasPagination := None;
                       c_sort := Some s; c_filters := None |};
     filters := None;
     hasPagination := None; pagination := None; sorters := None;
     queryOptions := None; successNotification := None;
     errorNotification := None; meta := None; metaData := None;
     liveMode := None; onLiveEvent := None; liveParams := None;
     dataProviderName := None; overtimeOptions := None |}.

Definition byTitle : CrudSorting :=
  [JObj {[ "field" := JStr "title"; "order" := JStr "asc" ]}].

(** The same request with a live mode and an overtime interval. *)
Definition liveProducts : UseListProps :=
  {| resourceFromProp := Some "products"; config := None; filters := None;
     hasPagination := None;
     pagination := Some (Sample.serverPagination 1 10); sorters := None;
     queryOptions := None; successNotification := None;
     errorNotification := None; meta := None; metaData := None;
     liveMode := Some "auto"; onLiveEvent := Some 7%positive;
     liveParams := Some {[ "ids" := JArr [JNum 1] ]};
     dataProviderName := None;
     overtimeOptions := Some {| interval := Some 1000; onInterval := None |} |}.

End MoreSamples.

(** ** The kanban board of the drag-and-drop tutorial

    The tutorial's [useData] hook calls [useList] and the dashboard page
    keeps what it returns in a state, [orders], from which the cards of
    each column are rendered and which a drop updates. *)

Module Kanban.

(** constants/enums.ts *)
Inductive ColumnTypes : Type :=
  | ORDERS
  | IN_PROGRESS
  | DELIVERED
  | RETURNED.

Definition columnValue (c : ColumnTypes) : string :=
  match c with
  | ORDERS => "Orders"
  | IN_PROGRESS => "In Progress"
  | DELIVERED => "Delivered"
  | RETURNED => "Returned"
  end.

(** [{ ...v }]: the own enumerable properties of a value.  An array or a
    string spreads its elements under their indices; the other values
    that are not objects spread nothing. *)
Definition ownProperties (v : Js) : gmap string Js :=
  match v with
  | JObj o => o
  | JArr xs => list_to_map (imap (λ i x, (pretty i, x)) xs)
  | JStr s =>
      list_to_map
        (imap (λ i c, (pretty i, JStr (String c EmptyString)))
           (String.list_ascii_of_string s))
  | _ => ∅
  end.

(** [v === s] for a string [s]. *)
Definition strictEqualsString (v : Js) (s : string) : bool :=
  match v with
  | JStr t => bool_decide (t = s)
  | _ => false
  end.

(** The props [useData] passes to [useList]. *)
Definition useDataProps : UseListProps :=
  {| resourceFromProp := Some "products";
     config :=
       Some {| c_pagination :=
                 Some {| p_current := Some 2; p_pageSize := None;
                         p_mode := None |};
               c_hasPagination := None; c_sort := None; c_filters := None |};
     filters := None; hasPagination := None; pagination := None;
     sorters := None; queryOptions := None; successNotification := None;
     errorNotification := None; meta := None; metaData := None;
     liveMode := None; onLiveEvent := None; liveParams := None;
     dataProviderName := None; overtimeOptions := None |}.

(** [useData] from [const { data } = useList<IProduct>(...)] on: [response]
    is that [data], the response the query holds or [undefined].  It
    returns [[newArr, data?.data]]. *)
Definition useData (response : option GetListResponse)
  : option (list (gmap string Js)) * option (list Js) :=
  let newArr :=
    (λ r, (λ i, spread (ownProperties i)
                  {[ "column" := JStr (columnValue ORDERS) ]}) <$> data r)
    <$> response in
  (newArr, data <$> response).

(** The props of a [Cards] element, but for [setOrders]. *)
Record CardsProps := {
  card_key : Js;
  card_name : Js;
  card_material : Js;
  card_index : nat;
}.

(** [columnItem] of the dashboard page, over its [orders] state. *)
Definition columnItem (orders : option (list (gmap string Js)))
    (columnName : string) : option (list CardsProps) :=
  (λ os,
     imap (λ index order,
             {| card_key := prop order "id";
                card_name := prop order "name";
                card_material := prop order "material";
                card_index := index |})
       (filter (λ order,
                  strictEqualsString (prop order "column") columnName = true)
          os))
  <$> orders.

(** The state update of [orderColumnChange]: what [setOrders] is given,
    applied to the previous state.  [currentOrderName] is
    [CurrentOrder.name], the name of the dragged card. *)
Definition orderColumnChange (currentOrderName columnName : string)
    (prevState : list (gmap string Js)) : list (gmap string Js) :=
  (λ item,
     spread item
       {[ "column" :=
            if strictEqualsString (prop item "name") currentOrderName
            then JStr columnName
            else prop item "column" ]})
  <$> prevState.

(** The [end] callback of [useDrag], as a change of the [orders] state:
    [order] is the name of the dragged card, [dropResult] the name of the
    column it was dropped on, if any. *)
Definition endDrag (order : string) (dropResult : option string)
    (orders : list (gmap string Js)) : list (gmap string Js) :=
  match dropResult with
  | Some name =>
      if bool_decide (name = columnValue ORDERS) then
        orderColumnChange order (columnValue ORDERS) orders
      else if bool_decide (name = columnValue IN_PROGRESS) then
        orderColumnChange order (columnValue IN_PROGRESS) orders
      else if bool_decide (name = columnValue DELIVERED) then
        orderColumnChange order (columnValue DELIVERED) orders
      else if bool_decide (name = columnValue RETURNED) then
        orderColumnChange order (columnValue RETURNED) orders
      else orders
  | None => orders
  end.

(** [useState<any[] | undefined>([])]: the [orders] state before the
    effect of the dashboard page has run. *)
Definition initialOrders : option (list (gmap string Js)) := Some [].

(** The [orders] state the effect leaves: [setOrders(newArr)] for [newArr]
    the first array of [useData]. *)
Definition ordersAfterEffect (response : option GetListResponse)
  : option (list (gmap string Js)) :=
  (useData response).1.

(** Three products, as the provider returns them. *)
Definition chair : Js :=
  JObj {[ "id" := JNum 1; "name" := JStr "Chair"; "material" := JStr "Wood" ]}.
Definition table : Js :=
  JObj {[ "id" := JNum 2; "name" := JStr "Table"; "material" := JStr "Steel" ]}.
Definition lamp : Js :=
  JObj {[ "id" := JNum 3; "name" := JStr "Lamp"; "material" := JStr "Glass" ]}.

Definition furniture : GetListResponse :=
  {| data := [chair; table; lamp]; total := 3; otherFields := ∅ |}.

Definition board : list (gmap string Js) :=
  default [] (useData (Some furniture)).1.

End Kanban.



(** * Properties *)

(** ** Objects and spread *)

Lemma lookup_spread (base over : gmap string Js) (k : string) :
  spread base over !! k =
  match over !! k with Some v => Some v | None => base !! k end.
Proof.
  unfold spread. rewrite lookup_union.
  destruct (over !! k), (base !! k); reflexivity.
Qed.

Lemma lookup_spread_singleton_eq (base : gmap string Js) k v :
  spread base {[ k := v ]} !! k = Some v.
Proof. rewrite lookup_spread, lookup_singleton_eq. reflexivity. Qed.

Lemma lookup_spread_singleton_ne (base : gmap string Js) k k' v :
  k ≠ k' → spread base {[ k := v ]} !! k' = base !! k'.
Proof. intros Hne. rewrite lookup_spread, lookup_singleton_ne; done. Qed.

Lemma dom_spread_singleton (base : gmap string Js) k v :
  dom (spread base {[ k := v ]}) = dom base ∪ {[ k ]}.
Proof. unfold spread. rewrite dom_union_L, dom_singleton_L. apply (comm_L (∪)). Qed.

Lemma prop_spread_singleton_ne (base : gmap string Js) k k' v :
  k ≠ k' → prop (spread base {[ k := v ]}) k' = prop base k'.
Proof. intros Hne. unfold prop. rewrite lookup_spread_singleton_ne; done. Qed.

(** ** Array.prototype.slice on a page *)

Lemma relativeIndex_nonneg len i :
  0 ≤ i → relativeIndex len i = Z.min i len.
Proof.
  intros Hi. unfold relativeIndex.
  destruct (Z.ltb_spec i 0); [lia | reflexivity].
Qed.

(** For a page number from 1 and a page size from 0, the slice is the page:
    skip the earlier pages, keep one page. *)
Lemma slice_page {A} (xs : list A) (page size : Z) :
  1 ≤ page → 0 ≤ size →
  slice xs ((page - 1) * size) (page * size) =
  take (Z.to_nat size) (drop (Z.to_nat ((page - 1) * size)) xs).
Proof.
  intros Hpage Hsize. unfold slice.
  rewrite !relativeIndex_nonneg by nia.
  set (len := Z.of_nat (length xs)).
  destruct (Z.le_gt_cases len ((page - 1) * size)) as [Hout | Hin].
  - rewrite Z.min_r by lia.
    rewrite !drop_ge by lia. by rewrite !take_nil.
  - rewrite (Z.min_l ((page - 1) * size)) by lia.
    destruct (Z.le_gt_cases (page * size) len) as [Hfull | Hshort].
    + rewrite Z.min_l by lia. do 2 f_equal. lia.
    + rewrite Z.min_r by lia.
      rewrite !take_ge; [done | |]; rewrite length_drop; lia.
Qed.

Lemma slice_page_length {A} (xs : list A) (page size : Z) :
  1 ≤ page → 0 ≤ size →
  (length (slice xs ((page - 1) * size) (page * size)) ≤ Z.to_nat size)%nat.
Proof.
  intros Hpage Hsize. rewrite slice_page by done.
  rewrite length_take. lia.
Qed.

Lemma slice_page_lookup {A} (xs : list A) (page size : Z) (i : nat) :
  1 ≤ page → 0 ≤ size → (i < Z.to_nat size)%nat →
  slice xs ((page - 1) * size) (page * size) !! i =
  xs !! (Z.to_nat ((page - 1) * size) + i)%nat.
Proof.
  intros Hpage Hsize Hi. rewrite slice_page by done.
  rewrite lookup_take_lt by done. by rewrite lookup_drop.
Qed.

(** ** The hook over any context and helpers *)

Section Properties.
Context {hooks : HookContext} {helpers : Helpers}.
Implicit Types (props : UseListProps) (rawData : GetListResponse).

(** The hook makes three calls, in this order. *)
Lemma useList_calls props :
  calls (useList props) =
  [ UseResourceSubscription (resourceSubscription props);
    UseQuery (listQueryKey props) (useList_queryFn props)
      (useList_queryOptions props);
    UseLoadingOvertime
      {| lo_isLoading :=
           prop (useQuery (listQueryKey props) (useList_queryFn props)
                   (useList_queryOptions props)) "isFetching";
         lo_interval := overtimeOptions props ≫= interval;
         lo_onInterval := overtimeOptions props ≫= onInterval |} ].
Proof. reflexivity. Qed.

Lemma isServerPagination_true props :
  isServerPagination props = true ↔ mode (prefferedPagination props) = "server".
Proof. unfold isServerPagination. apply bool_decide_eq_true. Qed.

Lemma isServerPagination_false props :
  isServerPagination props = false ↔ mode (prefferedPagination props) ≠ "server".
Proof. unfold isServerPagination. apply bool_decide_eq_false. Qed.

(** The response the select step builds before it looks for the caller's
    [select]. *)
Lemma clientPage_client props rawData :
  mode (prefferedPagination props) = "client" →
  clientPage props rawData =
  {| data := slice (data rawData)
               ((current (prefferedPagination props) - 1)
                * pageSize (prefferedPagination props))
               (current (prefferedPagination props)
                * pageSize (prefferedPagination props));
     total := total rawData;
     otherFields := otherFields rawData |}.
Proof.
  intros Hmode. unfold clientPage.
  destruct (prefferedPagination props) as [c ps m]; simpl in *.
  by rewrite bool_decide_eq_true_2.
Qed.

Lemma clientPage_other props rawData :
  mode (prefferedPagination props) ≠ "client" →
  clientPage props rawData = rawData.
Proof.
  intros Hmode. unfold clientPage.
  destruct (prefferedPagination props) as [c ps m]; simpl in *.
  by rewrite bool_decide_eq_false_2.
Qed.

(** C1 (as amended): in client mode the select step slices the raw data to
    the current page, in server mode it leaves the raw response as it is;
    the response so obtained is returned when the caller gave no
    [queryOptions.select], and is otherwise handed to the caller's
    [select], whose result is returned. *)
Theorem useList_select_pages props rawData :
  let p := prefferedPagination props in
  let finish r :=
    from_option (λ callerSelect, callerSelect r) r
      (queryOptions props ≫= select) in
  (mode p = "client" →
   useList_select props rawData =
   finish {| data := slice (data rawData)
                       ((current p - 1) * pageSize p) (current p * pageSize p);
             total := total rawData;
             otherFields := otherFields rawData |}) ∧
  (mode p = "server" → useList_select props rawData = finish rawData) ∧
  (queryOptions props ≫= select = None →
   (mode p = "client" →
    data (useList_select props rawData) =
    slice (data rawData)
      ((current p - 1) * pageSize p) (current p * pageSize p)) ∧
   (mode p = "server" → data (useList_select props rawData) = data rawData)).
Proof.
  intros p finish. unfold useList_select.
  assert (Hfinish : ∀ r,
    match queryOptions props ≫= select with
    | Some callerSelect => callerSelect r
    | None => r
    end = finish r).
  { intros r. unfold finish. by destruct (queryOptions props ≫= select). }
  rewrite Hfinish. split_and!.
  - intros Hmode. by rewrite clientPage_client.
  - intros Hmode. rewrite clientPage_other; [done |].
    fold p. rewrite Hmode. discriminate.
  - intros Hnone. unfold finish. rewrite Hnone. simpl. split.
    + intros Hmode. by rewrite clientPage_client.
    + intros Hmode. rewrite clientPage_other; [done |].
      fold p. rewrite Hmode. discriminate.
Qed.

(** In client mode, without a caller's [select], and for a page number
    from 1 and a page size from 0, the selected data is the page: at most
    [pageSize] records, starting after the earlier pages. *)
Lemma useList_select_page props rawData :
  let p := prefferedPagination props in
  mode p = "client" → queryOptions props ≫= select = None →
  1 ≤ current p → 0 ≤ pageSize p →
  data (useList_select props rawData) =
  take (Z.to_nat (pageSize p))
    (drop (Z.to_nat ((current p - 1) * pageSize p)) (data rawData)).
Proof.
  intros p Hmode Hnone Hpage Hsize. unfold useList_select.
  rewrite Hnone, clientPage_client by done. simpl.
  by apply slice_page.
Qed.

(** C8 (as amended): in client mode the response the select step builds
    differs from the raw response in [data] only: [total] and the other
    fields are those of the raw response.  It is returned as it is when
    the caller gave no [queryOptions.select] and is otherwise the argument
    of the caller's [select]. *)
Theorem useList_select_frame props rawData :
  mode (prefferedPagination props) = "client" →
  total (clientPage props rawData) = total rawData ∧
  otherFields (clientPage props rawData) = otherFields rawData ∧
  useList_select props rawData =
  from_option (λ callerSelect, callerSelect (clientPage props rawData))
    (clientPage props rawData) (queryOptions props ≫= select) ∧
  (queryOptions props ≫= select = None →
   total (useList_select props rawData) = total rawData ∧
   otherFields (useList_select props rawData) = otherFields rawData).
Proof.
  intros Hmode. rewrite (clientPage_client _ _ Hmode). simpl.
  assert (Hsel : useList_select props rawData =
    from_option (λ callerSelect, callerSelect (clientPage props rawData))
      (clientPage props rawData) (queryOptions props ≫= select)).
  { unfold useList_select. by destruct (queryOptions props ≫= select). }
  split_and!; [done | done | by rewrite <- (clientPage_client _ _ Hmode) |].
  intros Hnone. rewrite Hsel, Hnone. simpl.
  by rewrite (clientPage_client _ _ Hmode).
Qed.

(** C4: the error handler the hook registers with the query passes the
    error to [checkError], then to the caller's [queryOptions.onError],
    then calls the notification dispatcher with a fallback notification
    whose message is the translation of "notifications.error" defaulting
    to "Error (status code: <statusCode>)", whose description is the
    error's message and whose type is "error".  It does nothing else, and
    the hook adds no option of its own besides [enabled], [select],
    [onSuccess] and [onError] to the caller's query options. *)
Theorem useList_onError_forwards props err :
  ∃ subscription key queryFn options overtime,
    calls (useList props) =
      [UseResourceSubscription subscription; UseQuery key queryFn options;
       UseLoadingOvertime overtime] ∧
    o_otherOptions options = default ∅ (otherOptions <$> queryOptions props) ∧
    o_onError options err =
      [CheckError (v3LegacyAuthProviderCompatible) err] ++
      from_option (λ callerOnError, [CallerOnError callerOnError err]) []
        (queryOptions props ≫= onError) ++
      [HandleNotification
         (resolveNotification props (errorNotification props) err)
         (Some
            {| n_key :=
                 Some (templateString (identifier (resourceContext props))
                       +:+ "-useList-notification");
               n_message :=
                 translate "notifications.error"
                   {[ "statusCode" := JNum (statusCode err) ]}
                   ("Error (status code: " +:+ numToString (statusCode err)
                    +:+ ")");
               n_description := Some (message err);
               n_type := "error" |})].
Proof.
  do 5 eexists. split_and!; [apply useList_calls | reflexivity |].
  simpl. unfold useList_onError, errorFallback.
  by destruct (queryOptions props ≫= onError).
Qed.

(** C5: the query function the hook registers calls [getList] of the
    picked data provider with the resolved resource name (the empty
    string when there is no resource), the resolved pagination, the merged
    filters, the merged sorters both as [sort] and as [sorters], and the
    combined meta extended with the query context both as [meta] and as
    [metaData]; what [getList] answers is the result of the query
    function. *)
Theorem useList_queryFn_getList props ctx :
  ∃ subscription key queryFn options overtime params,
    calls (useList props) =
      [UseResourceSubscription subscription; UseQuery key queryFn options;
       UseLoadingOvertime overtime] ∧
    queryFn ctx = getList (dataProvider (pickedDataProvider props)) params ∧
    gl_resource params =
      match resource (resourceContext props) with
      | Some r => name r
      | None => ""
      end ∧
    gl_pagination params = prefferedPagination props ∧
    gl_filters params = prefferedFilters props ∧
    gl_sort params = prefferedSorters props ∧
    gl_sorters params = prefferedSorters props ∧
    gl_metaData params = gl_meta params ∧
    gl_meta params !! "queryContext" =
      Some (JObj {[ "queryKey" := JArr (ctx_queryKey ctx);
                    "pageParam" := ctx_pageParam ctx;
                    "signal" := ctx_signal ctx ]}) ∧
    ∀ k, k ≠ "queryContext" → gl_meta params !! k = combinedMeta props !! k.
Proof.
  do 5 eexists. exists (getListParams props ctx).
  split; [apply useList_calls |].
  split; [reflexivity |].
  split; [simpl; by destruct (resource (resourceContext props)) |].
  do 5 (split; [reflexivity |]).
  split.
  - simpl. apply lookup_spread_singleton_eq.
  - intros k Hk. simpl. by apply lookup_spread_singleton_ne.
Qed.

(** The base of the subscription parameters, before [liveParams]. *)
Lemma subscriptionParams_lookup props k :
  subscriptionParams props !! k =
  match default ∅ (liveParams props) !! k with
  | Some v => Some v
  | None =>
      ({[ "meta" := JObj (combinedMeta props);
          "metaData" := JObj (combinedMeta props);
          "pagination" := jsPagination (prefferedPagination props);
          "hasPagination" := JBool (isServerPagination props);
          "sort" := jsOpt JArr (prefferedSorters props);
          "sorters" := jsOpt JArr (prefferedSorters props);
          "filters" := jsOpt JArr (prefferedFilters props);
          "subscriptionType" := JStr "useList" ]} : gmap string Js) !! k
  end.
Proof. unfold subscriptionParams. apply lookup_spread. Qed.

(** C7: the hook registers one subscription.  Its channel is "resources/"
    followed by the name of the resolved resource, its types are ["*"],
    and its params hold the resolved pagination, the merged sorters and
    filters and the combined meta, each unless [liveParams] has a property
    of that name, which then wins. *)
Theorem useList_subscribes_once props :
  ∃ subscription,
    subscriptionCalls (calls (useList props)) = [subscription] ∧
    (∀ r, resource (resourceContext props) = Some r →
          s_channel subscription = "resources/" +:+ name r) ∧
    (resource (resourceContext props) = None →
     s_channel subscription = "resources/undefined") ∧
    s_types subscription = ["*"%string] ∧
    (∀ k v, default ∅ (liveParams props) !! k = Some v →
            s_params subscription !! k = Some v) ∧
    (∀ k, default ∅ (liveParams props) !! k = None →
       (k = "pagination" →
        s_params subscription !! k =
        Some (jsPagination (prefferedPagination props))) ∧
       (k = "sorters" ∨ k = "sort" →
        s_params subscription !! k =
        Some (jsOpt JArr (prefferedSorters props))) ∧
       (k = "filters" →
        s_params subscription !! k =
        Some (jsOpt JArr (prefferedFilters props))) ∧
       (k = "meta" ∨ k = "metaData" →
        s_params subscription !! k = Some (JObj (combinedMeta props)))).
Proof.
  exists (resourceSubscription props). split_and!.
  - reflexivity.
  - intros r Hr. simpl. by rewrite Hr.
  - intros Hr. simpl. by rewrite Hr.
  - reflexivity.
  - intros k v Hk. simpl. by rewrite subscriptionParams_lookup, Hk.
  - intros k Hk. simpl. rewrite subscriptionParams_lookup, Hk.
    split_and!; [intros -> | intros [-> | ->] | intros -> | intros [-> | ->]];
      by simplify_map_eq.
Qed.

(** C6 (as amended): the object the hook returns is the query library's
    result with one property set, [overtime], whose value is
    [{ elapsedTime }] for the elapsed time the overtime hook reports when
    given the result's [isFetching]; every other property, [data] and
    [total] among them, reads as it does on the query library's result. *)
Theorem useList_returns_query_result props :
  let queryResponse :=
    useQuery (listQueryKey props) (useList_queryFn props)
      (useList_queryOptions props) in
  let elapsedTime :=
    useLoadingOvertime
      {| lo_isLoading := prop queryResponse "isFetching";
         lo_interval := overtimeOptions props ≫= interval;
         lo_onInterval := overtimeOptions props ≫= onInterval |} in
  let returned := value (useList props) in
  (∀ k, k ≠ "overtime" → returned !! k = queryResponse !! k) ∧
  returned !! "overtime" =
    Some (JObj {[ "elapsedTime" := jsOpt JNum elapsedTime ]}) ∧
  dom returned = dom queryResponse ∪ {[ "overtime" ]} ∧
  prop returned "data" = prop queryResponse "data" ∧
  prop returned "total" = prop queryResponse "total" ∧
  (queryResponse !! "overtime" = None →
   delete "overtime" returned = queryResponse).
Proof.
  intros queryResponse elapsedTime returned.
  assert (Hret : returned =
    spread queryResponse
      {[ "overtime" := JObj {[ "elapsedTime" := jsOpt JNum elapsedTime ]} ]})
    by reflexivity.
  rewrite Hret. split_and!.
  - intros k Hk. by apply lookup_spread_singleton_ne.
  - apply lookup_spread_singleton_eq.
  - apply dom_spread_singleton.
  - by apply prop_spread_singleton_ne.
  - by apply prop_spread_singleton_ne.
  - intros Hfresh. unfold spread.
    rewrite <- insert_union_singleton_l, delete_insert_eq.
    by apply delete_id.
Qed.

Lemma listKeyConfig_lookup_pagination props :
  listKeyConfig props !! "pagination" =
  if isServerPagination props
  then Some (jsPagination (prefferedPagination props))
  else None.
Proof.
  unfold listKeyConfig, spreadIf, spreadWhen. rewrite !lookup_spread.
  destruct (config props ≫= c_sort), (sorters props),
    (isServerPagination props); by simplify_map_eq.
Qed.

Lemma listKeyConfig_lookup_filters props :
  listKeyConfig props !! "filters" = Some (jsOpt JArr (prefferedFilters props)).
Proof.
  unfold listKeyConfig, spreadIf, spreadWhen. rewrite !lookup_spread.
  destruct (config props ≫= c_sort), (sorters props),
    (isServerPagination props); by simplify_map_eq.
Qed.

Lemma listKeyConfig_lookup_hasPagination props :
  listKeyConfig props !! "hasPagination" =
  Some (JBool (isServerPagination props)).
Proof.
  unfold listKeyConfig, spreadIf, spreadWhen. rewrite !lookup_spread.
  destruct (config props ≫= c_sort), (sorters props),
    (isServerPagination props); by simplify_map_eq.
Qed.





(** C10: when [queryOptions.enabled] is defined, the query and the
    subscription are both enabled as it says; when it is undefined, the
    subscription is enabled, and the query is enabled exactly when the
    resource has a name that is not empty. *)
Theorem useList_enabled_flags props :
  ∃ subscription key queryFn options overtime,
    calls (useList props) =
      [UseResourceSubscription subscription; UseQuery key queryFn options;
       UseLoadingOvertime overtime] ∧
    (∀ b, queryOptions props ≫= enabled = Some b →
          o_enabled options = b ∧ s_enabled subscription = b) ∧
    (queryOptions props ≫= enabled = None →
     s_enabled subscription = true ∧
     (o_enabled options = true ↔
      ∃ r, resource (resourceContext props) = Some r ∧ name r ≠ "")) ∧
    (queryOptions props ≫= enabled = None →
     resource (resourceContext props) = None →
     s_enabled subscription = true ∧ o_enabled options = false).
Proof.
  do 5 eexists. split; [apply useList_calls |]. simpl.
  unfold isEnabled, useList_enabled. split_and!.
  - intros b ->. by destruct b.
  - intros ->. split; [done |].
    destruct (resource (resourceContext props)) as [r |].
    + rewrite bool_decide_eq_true. split; [eauto |].
      by intros (r' & [= <-] & Hname).
    + split; [done |]. by intros (r' & [=] & _).
  - by intros -> ->.
Qed.

End Properties.

(** ** The hook over the helpers as the spec has them *)

(** The spec's [pickNotDeprecated] keeps the first defined candidate. *)
Lemma pickNotDeprecated_pair {A} (current deprecated : option A) :
  SpecModel.pickNotDeprecated [current; deprecated] =
  match current with Some v => Some v | None => deprecated end.
Proof. by destruct current, deprecated. Qed.

Lemma pickNotDeprecated_first {A} (args : list (option A)) :
  SpecModel.pickNotDeprecated args = list_find is_Some args ≫= snd.
Proof.
  induction args as [| [v |] args IH]; simpl; [done | done |].
  rewrite IH. by destruct (list_find is_Some args) as [[i x] |].
Qed.

(** C2: with [pickNotDeprecated] as the spec has it, each of the four
    pairs resolves to the current option whenever that is defined, and to
    the deprecated one only when the current option is undefined. *)
Theorem deprecated_options_resolved (h : Helpers) props :
  prefferedFilters (helpers := withSpecPick h) props =
    match filters props with
    | Some current => Some current
    | None => config props ≫= c_filters
    end ∧
  prefferedSorters (helpers := withSpecPick h) props =
    match sorters props with
    | Some current => Some current
    | None => config props ≫= c_sort
    end ∧
  preferredMeta (helpers := withSpecPick h) props =
    match meta props with
    | Some current => Some current
    | None => metaData props
    end ∧
  prefferedHasPagination (helpers := withSpecPick h) props =
    match hasPagination props with
    | Some current => Some current
    | None => config props ≫= c_hasPagination
    end.
Proof.
  unfold prefferedFilters, prefferedSorters, preferredMeta,
    prefferedHasPagination.
  cbn [pickNotDeprecated withSpecPick].
  by rewrite !pickNotDeprecated_pair.
Qed.

Lemma modeName_cases (m : SpecModel.PaginationMode) :
  SpecModel.modeName m = "server" ∧ m = SpecModel.Server ∨
  SpecModel.modeName m = "client" ∧ m = SpecModel.Client.
Proof. destruct m; [left | right]; done. Qed.

(** C3: with the pagination modes the spec has, the hook resolves one
    mode, "server" or "client", from [pagination], [config.pagination] and
    the merged [hasPagination] flag, and its server-pagination flag, which
    it hands to [getList], to the notification values and to the cache
    key, is set exactly when that mode is "server". *)
Theorem pagination_mode_server_or_client {hooks : HookContext} (h : Helpers)
    (derive : option Pagination → option Pagination → option bool →
              SpecModel.DerivedPagination)
    props ctx :
  let spec := withSpecPagination derive h in
  let p := prefferedPagination (helpers := spec) props in
  let server := isServerPagination (helpers := spec) props in
  mode p =
    SpecModel.modeName
      (SpecModel.d_mode
         (derive (pagination props) (config props ≫= c_pagination)
            (prefferedHasPagination (helpers := h) props))) ∧
  (mode p = "server" ∨ mode p = "client") ∧
  (server = true ↔ mode p = "server") ∧
  (server = false ↔ mode p = "client") ∧
  gl_hasPagination (getListParams (helpers := spec) props ctx) = server ∧
  nv_hasPagination (notificationValues (helpers := spec) props) = server ∧
  listKeyConfig (helpers := spec) props !! "hasPagination" =
    Some (JBool server).
Proof.
  intros spec p server.
  assert (Hmode : mode p =
    SpecModel.modeName
      (SpecModel.d_mode
         (derive (pagination props) (config props ≫= c_pagination)
            (prefferedHasPagination (helpers := h) props)))) by reflexivity.
  split; [exact Hmode |].
  split; [rewrite Hmode; destruct (modeName_cases
    (SpecModel.d_mode (derive (pagination props)
       (config props ≫= c_pagination)
       (prefferedHasPagination (helpers := h) props)))) as [[-> _] | [-> _]];
    auto |].
  split; [apply isServerPagination_true |].
  split.
  - unfold server. rewrite isServerPagination_false. fold p.
    rewrite Hmode.
    destruct (SpecModel.d_mode _); simpl; split; congruence.
  - split_and!; [reflexivity | reflexivity |].
    apply listKeyConfig_lookup_hasPagination.
Qed.

(** ** The hook in the sample setting *)

(** C1, refuted as stated: in client mode, with a caller's [select] that
    reverses the page, the select step returns the first page reversed,
    not the slice of the raw data. *)
Lemma useList_select_slice_claim_fails :
  let props :=
    Sample.withQueryOptions (Sample.selecting Sample.reversed)
      (Sample.listProducts (Sample.clientPagination 1 2)) in
  let p := prefferedPagination (helpers := Sample.helpers) props in
  mode p = "client" ∧
  slice (data Sample.products)
    ((current p - 1) * pageSize p) (current p * pageSize p) =
    [JNum 11; JNum 12] ∧
  data (useList_select (helpers := Sample.helpers) props Sample.products) =
    [JNum 12; JNum 11] ∧
  data (useList_select (helpers := Sample.helpers) props Sample.products) ≠
    slice (data Sample.products)
      ((current p - 1) * pageSize p) (current p * pageSize p).
Proof. split_and!; [reflexivity | reflexivity | reflexivity | discriminate]. Qed.

Lemma useList_select_pages_witness :
  data (useList_select (helpers := Sample.helpers)
          (Sample.listProducts (Sample.clientPagination 2 2))
          Sample.products) =
  [JNum 13; JNum 14].
Proof.
  destruct (useList_select_pages (helpers := Sample.helpers)
              (Sample.listProducts (Sample.clientPagination 2 2))
              Sample.products) as (_ & _ & Hplain).
  destruct (Hplain eq_refl) as [Hclient _].
  rewrite (Hclient eq_refl). reflexivity.
Defined.

(** C8, refuted as stated: in client mode, with a caller's [select] that
    sets [total] to the length of the page it receives, the select step
    returns 2 as the total where the provider reported 5. *)
Lemma useList_select_total_claim_fails :
  let props :=
    Sample.withQueryOptions (Sample.selecting Sample.countPage)
      (Sample.listProducts (Sample.clientPagination 1 2)) in
  mode (prefferedPagination (helpers := Sample.helpers) props) = "client" ∧
  total Sample.products = 5 ∧
  total (useList_select (helpers := Sample.helpers) props Sample.products) = 2 ∧
  total (useList_select (helpers := Sample.helpers) props Sample.products) ≠
    total Sample.products.
Proof. split_and!; [reflexivity | reflexivity | reflexivity | discriminate]. Qed.

Lemma useList_select_frame_witness :
  total (useList_select (helpers := Sample.helpers)
           (Sample.listProducts (Sample.clientPagination 2 2))
           Sample.products) = 5 ∧
  otherFields (useList_select (helpers := Sample.helpers)
                 (Sample.listProducts (Sample.clientPagination 2 2))
                 Sample.products) = {[ "cursor" := JStr "next" ]}.
Proof.
  destruct (useList_select_frame (helpers := Sample.helpers)
              (Sample.listProducts (Sample.clientPagination 2 2))
              Sample.products eq_refl) as (_ & _ & _ & Hplain).
  exact (Hplain eq_refl).
Defined.

(** The error handler on a 404. *)
Example useList_onError_notFound :
  useList_onError (hooks := Sample.context) (helpers := Sample.helpers)
    (Sample.listProducts (Sample.clientPagination 1 2)) Sample.notFound =
  [ CheckError false Sample.notFound;
    HandleNotification None
      (Some {| n_key := Some "products-useList-notification";
               n_message := "Error (status code: 404)";
               n_description := Some "Not Found";
               n_type := "error" |}) ].
Proof. reflexivity. Qed.

Lemma useList_queryFn_getList_witness :
  ∃ params,
    useList_queryFn (hooks := Sample.context) (helpers := Sample.helpers)
      Sample.noProps
      {| ctx_queryKey := []; ctx_pageParam := JUndefined;
         ctx_signal := JHost 1 |} =
    Fulfilled Sample.products ∧
    gl_resource params = "" ∧
    gl_meta params !! "locale" = None.
Proof.
  destruct (useList_queryFn_getList (hooks := Sample.context)
              (helpers := Sample.helpers) Sample.noProps
              {| ctx_queryKey := []; ctx_pageParam := JUndefined;
                 ctx_signal := JHost 1 |})
    as (sub & key & fn & opts & lo & params & Hcalls & Hfn & Hres & _ & _ & _
        & _ & _ & _ & Hmeta).
  exists params. split; [reflexivity |]. split; [exact Hres |].
  rewrite (Hmeta "locale"); [reflexivity | discriminate].
Defined.

(** C6, refuted as stated: after a successful query the returned object
    has no [total] property, and its [data] property is the whole response
    object, not an array of records. *)
Lemma useList_return_shape_claim_fails :
  let returned :=
    value (useList (hooks := Sample.context) (helpers := Sample.helpers)
             (Sample.listProducts (Sample.serverPagination 1 10))) in
  returned !! "status" = Some (JStr "success") ∧
  returned !! "total" = None ∧
  returned !! "data" = Some (Sample.jsResponse Sample.products) ∧
  ¬ (∃ records count,
       returned !! "data" = Some (JArr records) ∧
       returned !! "total" = Some (JNum count)).
Proof.
  split_and!; [reflexivity | reflexivity | reflexivity |].
  intros (records & count & _ & Htotal). discriminate Htotal.
Qed.

Lemma useList_returns_query_result_witness :
  value (useList (hooks := Sample.context) (helpers := Sample.helpers)
           (Sample.listProducts (Sample.serverPagination 1 10)))
    !! "status" = Some (JStr "success") ∧
  delete "overtime"
    (value (useList (hooks := Sample.context) (helpers := Sample.helpers)
              (Sample.listProducts (Sample.serverPagination 1 10)))) =
  Sample.settledQuery
    (listQueryKey (hooks := Sample.context) (helpers := Sample.helpers)
       (Sample.listProducts (Sample.serverPagination 1 10)))
    (useList_queryFn (hooks := Sample.context) (helpers := Sample.helpers)
       (Sample.listProducts (Sample.serverPagination 1 10)))
    (useList_queryOptions (hooks := Sample.context)
       (helpers := Sample.helpers)
       (Sample.listProducts (Sample.serverPagination 1 10))).
Proof.
  destruct (useList_returns_query_result (hooks := Sample.context)
              (helpers := Sample.helpers)
              (Sample.listProducts (Sample.serverPagination 1 10)))
    as (Hother & _ & _ & _ & _ & Hfresh).
  split.
  - rewrite (Hother "status"); [reflexivity | discriminate].
  - apply Hfresh. reflexivity.
Defined.

Lemma useList_subscribes_once_witness :
  ∃ subscription,
    subscriptionCalls
      (calls (useList (hooks := Sample.context) (helpers := Sample.helpers)
                (Sample.listProducts (Sample.clientPagination 2 2)))) =
    [subscription] ∧
    s_channel subscription = "resources/products" ∧
    s_params subscription !! "filters" = Some JUndefined.
Proof.
  destruct (useList_subscribes_once (hooks := Sample.context)
              (helpers := Sample.helpers)
              (Sample.listProducts (Sample.clientPagination 2 2)))
    as (sub & Hone & Hchannel & _ & _ & _ & Hbase).
  exists sub. split; [exact Hone |]. split.
  - exact (Hchannel {| name := "products"; resourceOptions := ∅ |} eq_refl).
  - destruct (Hbase "filters" eq_refl) as (_ & _ & Hfilters & _).
    exact (Hfilters eq_refl).
Defined.


Example listQueryKey_server_pages_differ :
  listQueryKey (hooks := Sample.context) (helpers := Sample.helpers)
    (Sample.listProducts (Sample.serverPagination 1 2)) ≠
  listQueryKey (hooks := Sample.context) (helpers := Sample.helpers)
    (Sample.listProducts (Sample.serverPagination 2 2)).
Proof.
  intros Heq.
  apply (f_equal (λ key : list Js,
    match key !! 3%nat with
    | Some (JObj o) =>
        match o !! "pagination" with
        | Some (JObj pg) => pg !! "current"
        | _ => None
        end
    | _ => None
    end)) in Heq.
  vm_compute in Heq. discriminate Heq.
Qed.

(** With no props at all, no resource resolves: the subscription is
    enabled and the query is not. *)
Lemma useList_enabled_flags_witness :
  ∃ subscription key queryFn options overtime,
    calls (useList (hooks := Sample.context) (helpers := Sample.helpers)
             Sample.noProps) =
      [UseResourceSubscription subscription; UseQuery key queryFn options;
       UseLoadingOvertime overtime] ∧
    s_enabled subscription = true ∧ o_enabled options = false.
Proof.
  destruct (useList_enabled_flags (hooks := Sample.context)
              (helpers := Sample.helpers) Sample.noProps)
    as (sub & key & fn & opts & lo & Hcalls & _ & _ & Hnone).
  exists sub, key, fn, opts, lo. split; [exact Hcalls |].
  exact (Hnone eq_refl eq_refl).
Defined.

(** * Further properties of the hook *)

(** ** Client-side pages *)

Lemma relativeIndex_bounds len i :
  0 ≤ len → 0 ≤ relativeIndex len i ≤ len.
Proof.
  intros Hlen. unfold relativeIndex. destruct (Z.ltb_spec i 0); lia.
Qed.

Lemma relativeIndex_step len a size :
  0 ≤ len → 0 ≤ size →
  relativeIndex len (a + size) - relativeIndex len a ≤ size.
Proof.
  intros Hlen Hsize. unfold relativeIndex.
  destruct (Z.ltb_spec (a + size) 0), (Z.ltb_spec a 0); lia.
Qed.

Lemma slice_length_le {A} (xs : list A) (page size : Z) :
  0 ≤ size →
  (length (slice xs ((page - 1) * size) (page * size)) ≤ Z.to_nat size)%nat.
Proof.
  intros Hsize. unfold slice. rewrite length_take.
  pose proof (relativeIndex_step (Z.of_nat (length xs))
                ((page - 1) * size) size ltac:(lia) Hsize) as Hstep.
  replace ((page - 1) * size + size) with (page * size) in Hstep by lia.
  lia.
Qed.

Lemma slice_sublist {A} (xs : list A) (start finish : Z) :
  slice xs start finish `sublist_of` xs.
Proof.
  unfold slice. etrans; [apply sublist_take | apply sublist_drop].
Qed.

(** X1: in client mode, for a page number and a page size that are whole
    numbers, the size from 0, the page the select step builds is made of
    records of the raw response, in their order, and holds at most
    [pageSize] of them: none when [pageSize] is 0.  (A page size that is
    not a whole number is outside this statement: [slice] truncates each
    of its two bounds.) *)
Theorem clientPage_at_most_pageSize
    {helpers : Helpers} (props : UseListProps) (rawData : GetListResponse) :
  mode (prefferedPagination props) = "client" →
  0 ≤ pageSize (prefferedPagination props) →
  (length (data (clientPage props rawData))
   ≤ Z.to_nat (pageSize (prefferedPagination props)))%nat ∧
  data (clientPage props rawData) `sublist_of` data rawData ∧
  (pageSize (prefferedPagination props) = 0 →
   data (clientPage props rawData) = []).
Proof.
  intros Hmode Hsize. rewrite (clientPage_client _ _ Hmode). simpl.
  split_and!.
  - by apply slice_length_le.
  - apply slice_sublist.
  - intros Hzero. apply length_zero_iff_nil.
    pose proof (slice_length_le (data rawData)
                  (current (prefferedPagination props))
                  (pageSize (prefferedPagination props)) Hsize).
    lia.
Qed.

Lemma clientPage_at_most_pageSize_witness :
  (length (data (clientPage (helpers := Sample.helpers)
                   (Sample.listProducts (Sample.clientPagination 3 2))
                   Sample.products)) ≤ 2)%nat.
Proof.
  refine (proj1 (clientPage_at_most_pageSize (helpers := Sample.helpers)
                   (Sample.listProducts (Sample.clientPagination 3 2))
                   Sample.products eq_refl _)).
  simpl. lia.
Defined.

Lemma slice_page_zero {A} (xs : list A) (size : Z) :
  slice xs ((0 - 1) * size) (0 * size) = [].
Proof.
  unfold slice.
  pose proof (relativeIndex_bounds (Z.of_nat (length xs)) ((0 - 1) * size)
                ltac:(lia)).
  replace (relativeIndex (Z.of_nat (length xs)) (0 * size)) with 0.
  - replace (Z.to_nat _) with 0%nat by lia. apply take_0.
  - unfold relativeIndex. simpl. lia.
Qed.

(** X2: in client mode, page 0 is empty whatever the page size, and so is
    a page from 1 that starts at or after the end of the raw data; the
    total of the response is still the one the provider reported. *)
Theorem clientPage_out_of_range
    {helpers : Helpers} (props : UseListProps) (rawData : GetListResponse) :
  let p := prefferedPagination props in
  mode p = "client" →
  current p = 0 ∨
  (1 ≤ current p ∧ 0 ≤ pageSize p ∧
   Z.of_nat (length (data rawData)) ≤ (current p - 1) * pageSize p) →
  data (clientPage props rawData) = [] ∧
  total (clientPage props rawData) = total rawData.
Proof.
  intros p Hmode Hrange. rewrite (clientPage_client _ _ Hmode). simpl.
  split; [| reflexivity]. fold p.
  destruct Hrange as [-> | (Hpage & Hsize & Hend)].
  - apply slice_page_zero.
  - rewrite slice_page by done. rewrite drop_ge by lia. apply take_nil.
Qed.

Lemma clientPage_out_of_range_witness :
  data (clientPage (helpers := Sample.helpers)
          (Sample.listProducts (Sample.clientPagination 4 2))
          Sample.products) = [] ∧
  total (clientPage (helpers := Sample.helpers)
           (Sample.listProducts (Sample.clientPagination 4 2))
           Sample.products) = 5.
Proof.
  apply (clientPage_out_of_range (helpers := Sample.helpers)
           (Sample.listProducts (Sample.clientPagination 4 2))
           Sample.products eq_refl).
  right. simpl. lia.
Defined.

Lemma pages_concat {A} (xs : list A) (size n : nat) :
  concat (map (λ i, take size (drop (i * size) xs)) (seq 0 n)) =
  take (n * size) xs.
Proof.
  induction n as [| n IH]; [done |].
  rewrite seq_S, map_app, concat_app, IH. simpl.
  rewrite app_nil_r, take_take_drop. f_equal. lia.
Qed.

(** X3: in client mode and for a page size from 0, the pages 1 to [n],
    one after the other, are the first [n * pageSize] records of the raw
    data: no record is lost or repeated between pages, and once
    [n * pageSize] reaches the number of records the pages make up the
    whole of the raw data. *)
Theorem clientPages_partition
    {helpers : Helpers} (propsOfPage : nat → UseListProps) (size : Z) (n : nat)
    (rawData : GetListResponse) :
  0 ≤ size →
  (∀ i, (i < n)%nat →
        prefferedPagination (propsOfPage i) =
        {| current := Z.of_nat i + 1; pageSize := size; mode := "client" |}) →
  concat (map (λ i, data (clientPage (propsOfPage i) rawData)) (seq 0 n)) =
    take (n * Z.to_nat size) (data rawData) ∧
  ((length (data rawData) ≤ n * Z.to_nat size)%nat →
   concat (map (λ i, data (clientPage (propsOfPage i) rawData)) (seq 0 n)) =
   data rawData).
Proof.
  intros Hsize Hpages.
  assert (Hconcat :
    concat (map (λ i, data (clientPage (propsOfPage i) rawData)) (seq 0 n)) =
    take (n * Z.to_nat size) (data rawData)).
  { rewrite <- pages_concat. f_equal. apply map_ext_in.
    intros i Hi%in_seq.
    rewrite clientPage_client by (rewrite Hpages by lia; done).
    rewrite Hpages by lia. simpl.
    rewrite slice_page by lia. do 2 f_equal. lia. }
  split; [exact Hconcat |].
  intros Hall. rewrite Hconcat. by apply take_ge.
Qed.

Lemma clientPages_partition_witness :
  concat (map (λ i, data (clientPage (helpers := Sample.helpers)
                            (Sample.listProducts
                               (Sample.clientPagination (Z.of_nat i + 1) 2))
                            Sample.products))
            (seq 0 3)) =
  data Sample.products.
Proof.
  apply (clientPages_partition (helpers := Sample.helpers)
           (λ i, Sample.listProducts
                   (Sample.clientPagination (Z.of_nat i + 1) 2))
           2 3 Sample.products).
  - lia.
  - intros i Hi. reflexivity.
  - simpl. lia.
Defined.

(** X4: the page size is not validated.  In client mode, on page 1 with a
    page size that is a negative whole number, the select step keeps all
    the records but the last [- pageSize]. *)
Theorem clientPage_negative_pageSize
    {helpers : Helpers} (props : UseListProps) (rawData : GetListResponse) :
  let p := prefferedPagination props in
  mode p = "client" → current p = 1 → pageSize p < 0 →
  data (clientPage props rawData) =
  take (Z.to_nat (Z.of_nat (length (data rawData)) + pageSize p))
    (data rawData).
Proof.
  intros p Hmode Hpage Hsize. rewrite (clientPage_client _ _ Hmode). simpl.
  fold p. rewrite Hpage.
  replace ((1 - 1) * pageSize p) with 0 by lia.
  replace (1 * pageSize p) with (pageSize p) by lia.
  unfold slice. rewrite (relativeIndex_nonneg _ 0) by lia.
  rewrite Z.min_l by lia. unfold relativeIndex.
  destruct (Z.ltb_spec (pageSize p) 0); [| lia].
  change (Z.to_nat 0) with 0%nat. rewrite drop_0. f_equal. lia.
Qed.

Lemma clientPage_negative_pageSize_witness :
  data (clientPage (helpers := Sample.helpers)
          (Sample.listProducts (Sample.clientPagination 1 (-2)))
          Sample.products) = [JNum 11; JNum 12; JNum 13].
Proof.
  rewrite (clientPage_negative_pageSize (helpers := Sample.helpers)
             (Sample.listProducts (Sample.clientPagination 1 (-2)))
             Sample.products eq_refl eq_refl); [reflexivity |].
  simpl. lia.
Defined.

(** ** Modes the hook has no branch for *)

(** X5: when the resolved mode is neither "client" nor "server", the
    select step leaves the response unsliced, the request to the provider
    carries [hasPagination: false] next to the resolved pagination with
    that mode, and the cache key has no pagination. *)
Theorem useList_other_mode
    {hooks : HookContext} {helpers : Helpers}
    (props : UseListProps) (rawData : GetListResponse)
    (ctx : QueryFunctionContext) :
  mode (prefferedPagination props) ≠ "client" →
  mode (prefferedPagination props) ≠ "server" →
  clientPage props rawData = rawData ∧
  (queryOptions props ≫= select = None →
   useList_select props rawData = rawData) ∧
  gl_hasPagination (getListParams props ctx) = false ∧
  gl_pagination (getListParams props ctx) = prefferedPagination props ∧
  listKeyConfig props !! "pagination" = None ∧
  listKeyConfig props !! "hasPagination" = Some (JBool false).
Proof.
  intros Hclient Hserver.
  pose proof (proj2 (isServerPagination_false props) Hserver) as Hflag.
  split_and!.
  - by apply clientPage_other.
  - intros Hnone. unfold useList_select. rewrite Hnone.
    by apply clientPage_other.
  - exact Hflag.
  - reflexivity.
  - by rewrite listKeyConfig_lookup_pagination, Hflag.
  - by rewrite listKeyConfig_lookup_hasPagination, Hflag.
Qed.

Lemma useList_other_mode_witness :
  useList_select (helpers := Sample.helpers)
    (Sample.listProducts (MoreSamples.modePagination "off" 2 2))
    Sample.products = Sample.products.
Proof.
  destruct (useList_other_mode (hooks := Sample.context)
              (helpers := Sample.helpers)
              (Sample.listProducts (MoreSamples.modePagination "off" 2 2))
              Sample.products
              {| ctx_queryKey := []; ctx_pageParam := JUndefined;
                 ctx_signal := JHost 1 |})
    as (_ & Hplain & _); [discriminate | discriminate |].
  exact (Hplain eq_refl).
Defined.

(** ** The cache key and the request *)

Lemma listKeyConfig_lookup_sorters {helpers : Helpers} (props : UseListProps) :
  listKeyConfig props !! "sorters" = JArr <$> sorters props.
Proof.
  unfold listKeyConfig, spreadIf, spreadWhen. rewrite !lookup_spread.
  destruct (config props ≫= c_sort), (sorters props),
    (isServerPagination props); by simplify_map_eq.
Qed.

Lemma listKeyConfig_lookup_sort {helpers : Helpers} (props : UseListProps) :
  listKeyConfig props !! "sort" = JArr <$> (config props ≫= c_sort).
Proof.
  unfold listKeyConfig, spreadIf, spreadWhen. rewrite !lookup_spread.
  destruct (config props ≫= c_sort), (sorters props),
    (isServerPagination props); by simplify_map_eq.
Qed.

Lemma jsOpt_JArr_inj (a b : option (list Js)) :
  jsOpt JArr a = jsOpt JArr b → a = b.
Proof. destruct a, b; simpl; congruence. Qed.

Lemma jsPagination_inj (p q : RequiredPagination) :
  jsPagination p = jsPagination q → p = q.
Proof.
  destruct p as [c s m], q as [c' s' m']. unfold jsPagination. simpl.
  intros Hobj.
  assert (Hread : ∀ k,
    ({[ "current" := JNum c; "pageSize" := JNum s; "mode" := JStr m ]}
       : gmap string Js) !! k =
    ({[ "current" := JNum c'; "pageSize" := JNum s'; "mode" := JStr m' ]}
       : gmap string Js) !! k).
  { intros k.
    exact (f_equal (λ v, match v with JObj o => o !! k | _ => None end) Hobj). }
  pose proof (Hread "current") as Hc.
  pose proof (Hread "pageSize") as Hs.
  pose proof (Hread "mode") as Hm.
  clear Hobj Hread. simplify_map_eq. reflexivity.
Qed.

(** X6: the cache key covers the request.  Two invocations that pass the
    same object to [queryKey.list] send the same filters, the same sorters
    and the same [hasPagination] flag to the provider and, in server mode,
    the same pagination. *)
Theorem listKeyConfig_covers_request
    {hooks : HookContext} {helpers : Helpers}
    (props props' : UseListProps) (ctx : QueryFunctionContext) :
  listKeyConfig props = listKeyConfig props' →
  gl_filters (getListParams props ctx) = gl_filters (getListParams props' ctx) ∧
  gl_sorters (getListParams props ctx) = gl_sorters (getListParams props' ctx) ∧
  gl_sort (getListParams props ctx) = gl_sort (getListParams props' ctx) ∧
  gl_hasPagination (getListParams props ctx) =
    gl_hasPagination (getListParams props' ctx) ∧
  (mode (prefferedPagination props) = "server" →
   gl_pagination (getListParams props ctx) =
   gl_pagination (getListParams props' ctx)).
Proof.
  intros Hkey. simpl.
  assert (Hfilters : prefferedFilters props = prefferedFilters props').
  { apply jsOpt_JArr_inj.
    pose proof (f_equal (λ o : gmap string Js, o !! "filters") Hkey) as H.
    simpl in H. rewrite !listKeyConfig_lookup_filters in H. congruence. }
  assert (Hflag : isServerPagination props = isServerPagination props').
  { pose proof (f_equal (λ o : gmap string Js, o !! "hasPagination") Hkey)
      as H.
    simpl in H. rewrite !listKeyConfig_lookup_hasPagination in H.
    congruence. }
  assert (Hsorters : prefferedSorters props = prefferedSorters props').
  { unfold prefferedSorters. f_equal.
    - pose proof (f_equal (λ o : gmap string Js, o !! "sorters") Hkey) as H.
      simpl in H. rewrite !listKeyConfig_lookup_sorters in H.
      destruct (sorters props), (sorters props'); simpl in H; congruence.
    - pose proof (f_equal (λ o : gmap string Js, o !! "sort") Hkey) as H.
      simpl in H. rewrite !listKeyConfig_lookup_sort in H.
      destruct (config props ≫= c_sort), (config props' ≫= c_sort);
        simpl in H; congruence. }
  split_and!; [done | done | done | done |].
  intros Hserver. apply jsPagination_inj.
  pose proof (f_equal (λ o : gmap string Js, o !! "pagination") Hkey) as H.
  simpl in H. rewrite !listKeyConfig_lookup_pagination in H.
  rewrite <- Hflag in H.
  rewrite (proj2 (isServerPagination_true props) Hserver) in H. congruence.
Qed.

Lemma listKeyConfig_covers_request_witness :
  gl_filters (getListParams (hooks := Sample.context)
                (helpers := Sample.helpers)
                (Sample.listProducts (Sample.serverPagination 1 10))
                {| ctx_queryKey := []; ctx_pageParam := JUndefined;
                   ctx_signal := JHost 1 |}) =
  gl_filters (getListParams (hooks := Sample.context)
                (helpers := Sample.helpers) MoreSamples.liveProducts
                {| ctx_queryKey := []; ctx_pageParam := JUndefined;
                   ctx_signal := JHost 1 |}).
Proof.
  apply (listKeyConfig_covers_request (hooks := Sample.context)
           (helpers := Sample.helpers)
           (Sample.listProducts (Sample.serverPagination 1 10))
           MoreSamples.liveProducts).
  reflexivity.
Defined.

(** X7: the object passed to [queryKey.list] has no property besides
    [filters], [hasPagination], [pagination], [sorters] and [sort], and its
    [sorters] and [sort] are the caller's two options as given, not the
    merged sorters: naming the same sorters by the deprecated
    [config.sort] instead of [sorters] gives a different object. *)
Theorem listKeyConfig_properties
    {helpers : Helpers} (props props' : UseListProps) :
  (∀ k, is_Some (listKeyConfig props !! k) →
        k ∈ ["filters"; "hasPagination"; "pagination"; "sorters"; "sort"]) ∧
  listKeyConfig props !! "sorters" = JArr <$> sorters props ∧
  listKeyConfig props !! "sort" = JArr <$> (config props ≫= c_sort) ∧
  (is_Some (sorters props) → sorters props' = None →
   listKeyConfig props ≠ listKeyConfig props').
Proof.
  split_and!.
  - intros k Hk. unfold listKeyConfig, spreadIf, spreadWhen in Hk.
    rewrite !lookup_spread in Hk.
    destruct (decide (k = "filters")) as [-> | ?]; [set_solver |].
    destruct (decide (k = "hasPagination")) as [-> | ?]; [set_solver |].
    destruct (decide (k = "pagination")) as [-> | ?]; [set_solver |].
    destruct (decide (k = "sorters")) as [-> | ?]; [set_solver |].
    destruct (decide (k = "sort")) as [-> | ?]; [set_solver |].
    destruct (config props ≫= c_sort), (sorters props),
      (isServerPagination props); simplify_map_eq;
      by destruct Hk.
  - apply listKeyConfig_lookup_sorters.
  - apply listKeyConfig_lookup_sort.
  - intros [s Hs] Hnone Hkey.
    pose proof (f_equal (λ o : gmap string Js, o !! "sorters") Hkey) as H.
    simpl in H. rewrite !listKeyConfig_lookup_sorters, Hs, Hnone in H.
    discriminate H.
Qed.

Lemma listKeyConfig_properties_witness :
  prefferedSorters (helpers := Sample.helpers)
    (MoreSamples.sortedProducts MoreSamples.byTitle) =
  prefferedSorters (helpers := Sample.helpers)
    (MoreSamples.configSortedProducts MoreSamples.byTitle) ∧
  listKeyConfig (helpers := Sample.helpers)
    (MoreSamples.sortedProducts MoreSamples.byTitle) ≠
  listKeyConfig (helpers := Sample.helpers)
    (MoreSamples.configSortedProducts MoreSamples.byTitle).
Proof.
  split; [reflexivity |].
  apply (listKeyConfig_properties (helpers := Sample.helpers)
           (MoreSamples.sortedProducts MoreSamples.byTitle)
           (MoreSamples.configSortedProducts MoreSamples.byTitle)).
  - by eexists.
  - reflexivity.
Defined.

(** X8: the query options, the notification options, the live options and
    the overtime options have no part in the request: two invocations
    whose other props are the same call [getList] of the same provider
    with the same argument, under the same cache key, and page a response
    alike. *)
Theorem useList_request_frame
    {hooks : HookContext} {helpers : Helpers} (props props' : UseListProps) :
  requestProps props = requestProps props' →
  (∀ ctx, useList_queryFn props ctx = useList_queryFn props' ctx) ∧
  listQueryKey props = listQueryKey props' ∧
  (∀ rawData, clientPage props rawData = clientPage props' rawData).
Proof.
  destruct props, props'. unfold requestProps. simpl.
  intros [= -> -> -> -> -> -> -> -> ->]. done.
Qed.

Lemma useList_request_frame_witness :
  listQueryKey (hooks := Sample.context) (helpers := Sample.helpers)
    (Sample.listProducts (Sample.serverPagination 1 10)) =
  listQueryKey (hooks := Sample.context) (helpers := Sample.helpers)
    MoreSamples.liveProducts.
Proof.
  apply (useList_request_frame (hooks := Sample.context)
           (helpers := Sample.helpers)
           (Sample.listProducts (Sample.serverPagination 1 10))
           MoreSamples.liveProducts).
  reflexivity.
Defined.

(** X9: a query that is enabled has its subscription enabled: the hook
    never runs the query of a resource while leaving its live updates
    off. *)
Theorem useList_enabled_subscribes
    {hooks : HookContext} {helpers : Helpers} (props : UseListProps) :
  o_enabled (useList_queryOptions props) = true →
  s_enabled (resourceSubscription props) = true.
Proof.
  simpl. unfold useList_enabled, isEnabled.
  destruct (queryOptions props ≫= enabled) as [[|] |]; done.
Qed.

Lemma useList_enabled_subscribes_witness :
  s_enabled (resourceSubscription (hooks := Sample.context)
               (helpers := Sample.helpers)
               (Sample.listProducts (Sample.serverPagination 1 10))) = true.
Proof.
  apply (useList_enabled_subscribes (hooks := Sample.context)
           (helpers := Sample.helpers)).
  reflexivity.
Defined.

(** X10: one description of the request reaches every consumer.  The
    values handed to a notification function are the filters, sorters,
    pagination and flag sent to [getList], with [config.sort] replaced by
    the merged sorters; the object given to [queryKey.list] holds the same
    filters and flag; and the meta sent to [getList], as [meta] and as
    [metaData], is the meta of the notification values with
    [queryContext] set to the query context. *)
Theorem notificationValues_describe_request
    {hooks : HookContext} {helpers : Helpers}
    (props : UseListProps) (ctx : QueryFunctionContext) :
  let request := getListParams props ctx in
  let values := notificationValues props in
  nv_filters values = gl_filters request ∧
  nv_sorters values = gl_sorters request ∧
  c_sort (nv_config values) = gl_sort request ∧
  nv_pagination values = gl_pagination request ∧
  nv_hasPagination values = gl_hasPagination request ∧
  nv_metaData values = nv_meta values ∧
  listKeyConfig props !! "filters" = Some (jsOpt JArr (gl_filters request)) ∧
  listKeyConfig props !! "hasPagination" =
    Some (JBool (gl_hasPagination request)) ∧
  gl_meta request = <[ "queryContext" := jsQueryContext ctx ]> (nv_meta values) ∧
  gl_metaData request = gl_meta request ∧
  gl_meta request !! "queryContext" = Some (jsQueryContext ctx) ∧
  (∀ k, k ≠ "queryContext" → gl_meta request !! k = nv_meta values !! k).
Proof.
  intros request values.
  do 6 (split; [reflexivity |]).
  split; [apply listKeyConfig_lookup_filters |].
  split; [apply listKeyConfig_lookup_hasPagination |].
  assert (Hmeta : gl_meta request =
    <[ "queryContext" := jsQueryContext ctx ]> (nv_meta values)).
  { simpl. unfold spread. by rewrite insert_union_singleton_l. }
  split; [exact Hmeta |]. split; [reflexivity |].
  rewrite Hmeta. split.
  - apply lookup_insert_eq.
  - intros k Hk. by apply lookup_insert_ne.
Qed.

Lemma notificationValues_describe_request_witness :
  gl_meta (getListParams (hooks := Sample.context) (helpers := Sample.helpers)
             Sample.noProps
             {| ctx_queryKey := []; ctx_pageParam := JUndefined;
                ctx_signal := JHost 1 |}) !! "locale" = None.
Proof.
  destruct (notificationValues_describe_request (hooks := Sample.context)
              (helpers := Sample.helpers) Sample.noProps
              {| ctx_queryKey := []; ctx_pageParam := JUndefined;
                 ctx_signal := JHost 1 |})
    as (_ & _ & _ & _ & _ & _ & _ & _ & _ & _ & _ & Hother).
  rewrite (Hother "locale"); [reflexivity | discriminate].
Defined.

(** X11: on success the hook calls the caller's [onSuccess], when there
    is one, and then the notification dispatcher, once and with no
    fallback notification; it does not call [checkError].  With a
    [successNotification] that is not a function, the dispatcher gets it
    whatever the response; with none, it gets [undefined]. *)
Theorem useList_onSuccess_notifies
    {hooks : HookContext} {helpers : Helpers}
    (props : UseListProps) (response : GetListResponse) :
  ∃ config,
    o_onSuccess (useList_queryOptions props) response =
      from_option (λ callerOnSuccess, [CallerOnSuccess callerOnSuccess response])
        [] (queryOptions props ≫= onSuccess)
      ++ [HandleNotification config None] ∧
    notificationCalls (o_onSuccess (useList_queryOptions props) response) =
      [(config, None)] ∧
    checkErrorCalls (o_onSuccess (useList_queryOptions props) response) = [] ∧
    (∀ c, successNotification props = Some (NotificationStatic c) →
          config = Some c) ∧
    (successNotification props = None → config = None) ∧
    (∀ f, successNotification props = Some (NotificationFunction f) →
          config = f response (notificationValues props)
                     (identifier (resourceContext props))).
Proof.
  exists (resolveNotification props (successNotification props) response).
  simpl. unfold useList_onSuccess.
  split_and!.
  - by destruct (queryOptions props ≫= onSuccess).
  - by destruct (queryOptions props ≫= onSuccess).
  - by destruct (queryOptions props ≫= onSuccess).
  - by intros c ->.
  - by intros ->.
  - by intros f ->.
Qed.

Lemma useList_onSuccess_notifies_witness :
  o_onSuccess (useList_queryOptions (hooks := Sample.context)
                 (helpers := Sample.helpers)
                 (Sample.listProducts (Sample.serverPagination 1 10)))
    Sample.products =
  [HandleNotification None None].
Proof.
  destruct (useList_onSuccess_notifies (hooks := Sample.context)
              (helpers := Sample.helpers)
              (Sample.listProducts (Sample.serverPagination 1 10))
              Sample.products)
    as (config & Heffects & _ & _ & _ & Hnone & _).
  rewrite Heffects, (Hnone eq_refl). reflexivity.
Defined.

(** * The kanban board *)

Section KanbanProperties.
Import Kanban.
Implicit Types (orders prevState : list (gmap string Js)) (item : gmap string Js).

Lemma prop_spread_singleton_eq (base : gmap string Js) k v :
  prop (spread base {[ k := v ]}) k = v.
Proof. unfold prop. by rewrite lookup_spread_singleton_eq. Qed.

Lemma strictEqualsString_true v s :
  strictEqualsString v s = true ↔ v = JStr s.
Proof.
  destruct v; simpl; try (split; [discriminate | congruence]).
  rewrite bool_decide_eq_true. split; congruence.
Qed.

Lemma filter_fmap {A B} (f : A → B) (P : B → Prop)
    `{!∀ y, Decision (P y)} (l : list A) :
  filter P (f <$> l) = f <$> filter (λ x, P (f x)) l.
Proof.
  induction l as [| x l IH]; [done |]. rewrite fmap_cons.
  destruct (decide (P (f x))).
  - rewrite !filter_cons_True by done. by rewrite fmap_cons, IH.
  - by rewrite !filter_cons_False.
Qed.

Lemma filter_all {A} (P : A → Prop) `{!∀ x, Decision (P x)} (l : list A) :
  (∀ x, x ∈ l → P x) → filter P l = l.
Proof.
  induction l as [| x l IH]; [done |]. intros Hall.
  rewrite filter_cons_True by (apply Hall; left).
  f_equal. apply IH. intros y Hy. apply Hall. by right.
Qed.

Lemma filter_none {A} (P : A → Prop) `{!∀ x, Decision (P x)} (l : list A) :
  (∀ x, x ∈ l → ¬ P x) → filter P l = [].
Proof.
  induction l as [| x l IH]; [done |]. intros Hnone.
  rewrite filter_cons_False by (apply Hnone; left).
  apply IH. intros y Hy. apply Hnone. by right.
Qed.

(** X12: [useData] returns two [undefined]s while the query holds no
    response.  Once it does, the first array has one item per record, in
    the same order: the record's own properties with [column] set to
    "Orders", over any [column] the record had; the second is the array
    of records itself. *)
Theorem useData_adds_column (response : option GetListResponse) :
  (response = None → useData response = (None, None)) ∧
  (∀ r, response = Some r →
     ∃ newArr,
       useData response = (Some newArr, Some (data r)) ∧
       length newArr = length (data r) ∧
       ∀ i record, data r !! i = Some record →
         ∃ item,
           newArr !! i = Some item ∧
           item !! "column" = Some (JStr "Orders") ∧
           ∀ k, k ≠ "column" → item !! k = ownProperties record !! k).
Proof.
  split; [by intros -> |].
  intros r ->. eexists. split; [reflexivity |]. split.
  - by rewrite length_fmap.
  - intros i record Hi. eexists. rewrite list_lookup_fmap, Hi. simpl.
    split; [reflexivity |]. split.
    + apply lookup_spread_singleton_eq.
    + intros k Hk. by apply lookup_spread_singleton_ne.
Qed.

Lemma useData_adds_column_witness :
  ∃ newArr,
    useData (Some furniture) = (Some newArr, Some [chair; table; lamp]) ∧
    length newArr = 3%nat.
Proof.
  destruct (proj2 (useData_adds_column (Some furniture)) furniture eq_refl)
    as (newArr & Hdata & Hlength & _).
  exists newArr. split; [exact Hdata | exact Hlength].
Defined.

(** X13: the board before and after the effect of the dashboard page.
    Before the effect has run the state is the empty array and every
    column is empty.  Once the effect has stored what [useData] makes of a
    response, the "Orders" column has one card per record, in the order of
    the records and numbered from 0, and every other column is empty; when
    it has stored what [useData] returns without a response, [undefined],
    [columnItem] is [undefined] for every column. *)
Theorem columnItem_after_useData (r : GetListResponse) (columnName : string) :
  columnItem initialOrders columnName = Some [] ∧
  columnItem (ordersAfterEffect None) columnName = None ∧
  columnItem (ordersAfterEffect (Some r)) columnName =
  Some (if bool_decide (columnName = "Orders") then
          imap (λ index record,
                  {| card_key := prop (ownProperties record) "id";
                     card_name := prop (ownProperties record) "name";
                     card_material := prop (ownProperties record) "material";
                     card_index := index |})
            (data r)
        else []).
Proof.
  split; [reflexivity |]. split; [reflexivity |].
  unfold ordersAfterEffect. simpl. f_equal. case_bool_decide as Hcol.
  - subst columnName. rewrite filter_all.
    + rewrite imap_fmap. apply imap_ext. intros i record _. simpl.
      by rewrite !prop_spread_singleton_ne.
    + intros item (record & -> & _)%list_elem_of_fmap.
      by rewrite prop_spread_singleton_eq.
  - rewrite filter_none; [done |].
    intros item (record & -> & _)%list_elem_of_fmap.
    rewrite prop_spread_singleton_eq. simpl.
    rewrite bool_decide_eq_true. congruence.
Qed.

(** What [orderColumnChange] does to one item. *)
Lemma orderColumnChange_lookup currentOrderName columnName prevState i item :
  prevState !! i = Some item →
  ∃ item',
    orderColumnChange currentOrderName columnName prevState !! i = Some item' ∧
    (∀ k, k ≠ "column" → item' !! k = item !! k) ∧
    (prop item "name" = JStr currentOrderName →
     prop item' "column" = JStr columnName) ∧
    (prop item "name" ≠ JStr currentOrderName →
     prop item' "column" = prop item "column").
Proof.
  intros Hi. eexists. unfold orderColumnChange.
  rewrite list_lookup_fmap, Hi. simpl. split; [reflexivity |].
  split; [| split].
  - intros k Hk. by apply lookup_spread_singleton_ne.
  - intros Hname. rewrite prop_spread_singleton_eq.
    by rewrite (proj2 (strictEqualsString_true _ _) Hname).
  - intros Hname. rewrite prop_spread_singleton_eq.
    destruct (strictEqualsString (prop item "name") currentOrderName) eqn:Heq;
      [| done].
    by apply strictEqualsString_true in Heq.
Qed.

(** X14: after [orderColumnChange] a column shows, in the order of the
    state and numbered from 0, the cards of the dragged name if it is the
    column dropped on, and otherwise the cards it showed before that do
    not have the dragged name; each card keeps its id, name and material.
    All the cards that share the dragged name move together. *)
Theorem columnItem_after_orderColumnChange
    (currentOrderName target columnName : string) orders :
  columnItem (Some (orderColumnChange currentOrderName target orders))
    columnName =
  Some (imap (λ index order,
                {| card_key := prop order "id";
                   card_name := prop order "name";
                   card_material := prop order "material";
                   card_index := index |})
          (filter (λ order,
                     (if strictEqualsString (prop order "name") currentOrderName
                      then bool_decide (target = columnName)
                      else strictEqualsString (prop order "column") columnName)
                     = true)
             orders)).
Proof.
  unfold columnItem, orderColumnChange. simpl. f_equal.
  rewrite filter_fmap, imap_fmap.
  rewrite (list_filter_iff _
    (λ order,
       (if strictEqualsString (prop order "name") currentOrderName
        then bool_decide (target = columnName)
        else strictEqualsString (prop order "column") columnName) = true)).
  - apply imap_ext. intros i order _. simpl.
    by rewrite !prop_spread_singleton_ne.
  - intros order. rewrite prop_spread_singleton_eq.
    by destruct (strictEqualsString (prop order "name") currentOrderName).
Qed.

Lemma endDrag_known (order : string) (c : ColumnTypes) orders :
  endDrag order (Some (columnValue c)) orders =
  orderColumnChange order (columnValue c) orders.
Proof. by destruct c. Qed.

(** X15: a drag that ends outside every column, or on a column whose name
    is none of the four column types, leaves the state as it is; a drag
    that ends on one of the four columns updates the state as
    [orderColumnChange] does for that column, and every card stays on the
    board. *)
Theorem endDrag_drop (order : string) (dropResult : option string) orders :
  (dropResult = None → endDrag order dropResult orders = orders) ∧
  (∀ name, dropResult = Some name →
     (∀ c, name ≠ columnValue c) →
     endDrag order dropResult orders = orders) ∧
  (∀ c, dropResult = Some (columnValue c) →
     endDrag order dropResult orders =
     orderColumnChange order (columnValue c) orders) ∧
  length (endDrag order dropResult orders) = length orders.
Proof.
  split_and!.
  - by intros ->.
  - intros name -> Hname. unfold endDrag.
    rewrite !bool_decide_eq_false_2; [done | apply Hname ..].
  - intros c ->. apply endDrag_known.
  - unfold endDrag. destruct dropResult as [name |]; [| done].
    repeat case_bool_decide; try done;
      unfold orderColumnChange; by rewrite length_fmap.
Qed.

Lemma endDrag_drop_witness :
  endDrag "Table" (Some "Archive") board = board ∧
  endDrag "Table" (Some "Delivered") board =
  orderColumnChange "Table" "Delivered" board.
Proof.
  destruct (endDrag_drop "Table" (Some "Archive") board) as (_ & Hother & _).
  destruct (endDrag_drop "Table" (Some "Delivered") board)
    as (_ & _ & Hknown & _).
  split.
  - apply (Hother "Archive" eq_refl). by intros [].
  - exact (Hknown DELIVERED eq_refl).
Defined.

Lemma orderColumnChange_twice currentOrderName a b orders :
  orderColumnChange currentOrderName b
    (orderColumnChange currentOrderName a orders) =
  orderColumnChange currentOrderName b orders.
Proof.
  unfold orderColumnChange. rewrite <- list_fmap_compose.
  apply list_fmap_ext. intros i item _. simpl.
  rewrite prop_spread_singleton_ne by done.
  rewrite prop_spread_singleton_eq. unfold spread.
  rewrite <- !insert_union_singleton_l, insert_insert_eq.
  by destruct (strictEqualsString (prop item "name") currentOrderName).
Qed.

(** X16: of two drops of the same card on columns of the board, the last
    one decides: the state is what the second drop alone would have made
    of the first state.  Dropping a card again on the column it is in
    changes nothing. *)
Theorem endDrag_last_drop_wins (order : string) (a b : ColumnTypes) orders :
  endDrag order (Some (columnValue b))
    (endDrag order (Some (columnValue a)) orders) =
  endDrag order (Some (columnValue b)) orders ∧
  endDrag order (Some (columnValue a))
    (endDrag order (Some (columnValue a)) orders) =
  endDrag order (Some (columnValue a)) orders.
Proof.
  rewrite !endDrag_known. by rewrite !orderColumnChange_twice.
Qed.

End KanbanProperties.
